(** * VB4: code progress tracking

    A shallow embedding of the progress tracker ([progress_tracker.py]),
    the vector storage facade ([storage_service.py]), the data model
    ([models.py]), the [/sync/] handler of [main.py], the issue tracker
    ([issue_tracker.py]) and the query of the search command ([cli.py]),
    with the properties of the specification stated and settled against
    it, and further properties of the code.

    Python values are modelled as follows.
    - [str] is a list of Unicode code points ([list N]); the literals of
      the source are written [py "..."].
    - [dict] used for lookup is a [gmap]; the dict whose iteration order
      is observed ([changes_by_category]) is an association list.
    - [datetime] is a record of its seven fields.
    - The functions of the Python runtime whose results no property
      depends on (date printing and parsing, JSON, float printing, the
      Unicode lowercase table beyond ASCII) form the class [PyRuntime].
    - The collaborators (git, the vector store) are interfaces: [Repo]
      and [VectorStore]; [git_Repo] and [Qdrant.store] follow what
      GitPython and the langchain wrapper of Qdrant do. *)

From Stdlib Require Import NArith ZArith Lia Ascii String List Bool.
From stdpp Require Import base option list gmap strings pretty sorting.

Set Default Proof Using "Type".

(** ** Python strings *)

Abbreviation pystr := (list N).

Module PyStr.

(** A literal of the source, as code points. *)
Definition py (s : string) : pystr :=
  map N_of_ascii (list_ascii_of_string s).

(** [s.startswith(prefix)] *)
Fixpoint startswith (s prefix : pystr) {struct prefix} : bool :=
  match prefix, s with
  | [], _ => true
  | _ :: _, [] => false
  | p :: prefix', c :: s' => (c =? p)%N && startswith s' prefix'
  end.

(** [s.endswith(suffix)] *)
Definition endswith (s suffix : pystr) : bool :=
  startswith (rev s) (rev suffix).

(** [s.endswith((a, b, c))]: a tuple of suffixes, any of which may match. *)
Definition endswith_any (s : pystr) (suffixes : list pystr) : bool :=
  existsb (endswith s) suffixes.

(** [sub in s] *)
Fixpoint contains (sub s : pystr) : bool :=
  startswith s sub ||
  match s with
  | [] => false
  | _ :: s' => contains sub s'
  end.

(** The lowercase of an ASCII code point. *)
Definition ascii_lower (c : N) : N :=
  if ((65 <=? c) && (c <=? 90))%N then (c + 32)%N else c.

(** [sep.join(parts)] *)
Fixpoint join (sep : pystr) (parts : list pystr) : pystr :=
  match parts with
  | [] => []
  | [p] => p
  | p :: rest => p ++ sep ++ join sep rest
  end.

(** [s.split(sep)] for a non-empty separator, scanning left to right.
    [skip] counts the code points of a separator just matched that are
    still to be dropped. The result is the first piece and the others. *)
Fixpoint split_aux (sep : pystr) (skip : nat) (s : pystr) : pystr * list pystr :=
  match s with
  | [] => ([], [])
  | c :: s' =>
      match skip with
      | S k => split_aux sep k s'
      | O =>
          if startswith s sep
          then ([], let '(p, ps) := split_aux sep (length sep - 1) s' in p :: ps)
          else let '(p, ps) := split_aux sep 0 s' in (c :: p, ps)
      end
  end.

Definition split (s sep : pystr) : list pystr :=
  let '(p, ps) := split_aux sep 0 s in p :: ps.

(** [s.replace(old, new)] for a non-empty [old]: every occurrence found
    scanning left to right, none overlapping an earlier one. *)
Fixpoint replace_aux (old new : pystr) (skip : nat) (s : pystr) : pystr :=
  match s with
  | [] => []
  | c :: s' =>
      match skip with
      | S k => replace_aux old new k s'
      | O =>
          if startswith s old
          then new ++ replace_aux old new (length old - 1) s'
          else c :: replace_aux old new 0 s'
      end
  end.

Definition replace (s old new : pystr) : pystr := replace_aux old new 0 s.

(** [c.isspace()]: the whitespace code points of CPython. *)
Definition isspace (c : N) : bool :=
  (((9 <=? c) && (c <=? 13)) || ((28 <=? c) && (c <=? 32))
   || (c =? 133) || (c =? 160) || (c =? 5760)
   || ((8192 <=? c) && (c <=? 8202))
   || (c =? 8232) || (c =? 8233) || (c =? 8239) || (c =? 8287)
   || (c =? 12288))%N.

Fixpoint lstrip (s : pystr) : pystr :=
  match s with
  | [] => []
  | c :: s' => if isspace c then lstrip s' else s
  end.

Definition rstrip (s : pystr) : pystr := rev (lstrip (rev s)).

(** [s.strip()] *)
Definition strip (s : pystr) : pystr := rstrip (lstrip s).

(** [w] is [pattern] in some letter case: each code point is the one of
    the pattern or, 32 below it, its capital. *)
Definition case_variant (w pattern : pystr) : Prop :=
  Forall2 (fun c p => c = p \/ (c + 32)%N = p) w pattern.

Definition lowercase_letters (pattern : pystr) : Prop :=
  Forall (fun p => (97 <= p <= 122)%N) pattern.

(** The text of [s] up to its first line feed. *)
Fixpoint first_line (s : pystr) : pystr :=
  match s with
  | [] => []
  | c :: s' => if (c =? 10)%N then [] else c :: first_line s'
  end.

(** [str(n)] for a non-negative integer. *)
Definition str_of_N (n : N) : pystr := py (pretty n).

End PyStr.

Import PyStr.

Arguments py : simpl never.

(** ** datetime *)

Record datetime := mk_datetime {
  year : Z;
  month : Z;
  day : Z;
  hour : Z;
  minute : Z;
  second : Z;
  microsecond : Z
}.

(** [d.replace(hour=h, minute=m)]: the other fields are kept. *)
Definition replace_hour_minute (d : datetime) (h m : Z) : datetime :=
  {| year := year d; month := month d; day := day d;
     hour := h; minute := m;
     second := second d; microsecond := microsecond d |}.

(** The start of the day of [d]: local midnight. *)
Definition start_of_day (d : datetime) : datetime :=
  {| year := year d; month := month d; day := day d;
     hour := 0; minute := 0; second := 0; microsecond := 0 |}.

(** ** The Python runtime *)

Class PyRuntime := {
  (** [str(d)] for a datetime *)
  datetime_str : datetime -> pystr;
  (** [d.isoformat()] *)
  isoformat : datetime -> pystr;
  (** [datetime.fromisoformat(s)]; [None] stands for its ValueError *)
  fromisoformat : pystr -> option datetime;
  (** [datetime.fromtimestamp(t)] *)
  fromtimestamp : Z -> datetime;
  (** [str(d.timestamp())] *)
  timestamp_str : datetime -> pystr;
  (** [json.dumps(l)] for a list of strings *)
  json_dumps : list pystr -> pystr;
  (** [json.loads(s)] read as a list of strings; [None] stands for a
      decoding or validation error *)
  json_loads : pystr -> option (list pystr);
  (** The lowercase of the code point [c >= 128] at index [i] of [s]. *)
  unicode_lower : pystr -> nat -> N -> pystr
}.

(** [s.lower()]: ASCII code points are lowered in place, the others by
    the Unicode tables of the runtime. *)
Fixpoint lower_from {rt : PyRuntime} (whole : pystr) (i : nat) (s : pystr) : pystr :=
  match s with
  | [] => []
  | c :: s' =>
      (if (c <? 128)%N then [ascii_lower c] else unicode_lower whole i c)
        ++ lower_from whole (S i) s'
  end.

Definition lower {rt : PyRuntime} (s : pystr) : pystr := lower_from s 0 s.

(** ** models.py *)

(** [CodeChange.metadata] is a [Dict[str, str]]: the line counts of a
    commit are kept in it as their decimal text. *)
Record CodeChange := mk_CodeChange {
  cc_id : pystr;
  cc_timestamp : datetime;
  cc_files_changed : list pystr;
  cc_description : pystr;
  cc_category : pystr;
  cc_commit_hash : option pystr;
  cc_metadata : gmap pystr pystr
}.

Record ProgressEntry := mk_ProgressEntry {
  pe_id : pystr;
  pe_date : datetime;
  pe_title : pystr;
  pe_description : pystr;
  pe_changes : list CodeChange;
  pe_category : pystr;
  pe_tags : list pystr;
  pe_impact_level : pystr
}.

Record SearchQuery := mk_SearchQuery {
  sq_query : pystr;
  sq_categories : option (list pystr);
  sq_date_range : option (datetime * datetime);
  sq_tags : option (list pystr)
}.

(** ** Exceptions and results *)

Inductive exn :=
| RepositoryNotFoundError
| StorageUnavailableError
| InvalidGitRepositoryError
| NoSuchPathError
| KeyError (key : pystr)
| IndexError
| ValueError
| JSONDecodeError.

Inductive result (A : Type) :=
| Ok (a : A)
| Raise (e : exn).

Arguments Ok {A} a.
Arguments Raise {A} e.

Definition rbind {A B} (m : result A) (k : A -> result B) : result B :=
  match m with
  | Ok a => k a
  | Raise e => Raise e
  end.

Notation "'try' x ':=' m 'in' k" := (rbind m (fun x => k))
  (at level 10, x name, m at level 100, k at level 200).

(** A loop that builds a list, stopping at the first exception. *)
Fixpoint rmap {A B} (f : A -> result B) (l : list A) : result (list B) :=
  match l with
  | [] => Ok []
  | a :: l' => try b := f a in try bs := rmap f l' in Ok (b :: bs)
  end.

(** ** The git collaborator *)

(** What the tracker reads of a commit. *)
Record Commit := mk_Commit {
  committed_date : Z;
  message : pystr;
  diff_a_paths : list pystr;      (* [diff.a_path for diff in commit.diff()] *)
  hexsha : pystr;
  author : pystr;                 (* [str(commit.author)] *)
  insertions : N;                 (* [commit.stats.total["insertions"]] *)
  deletions : N
}.

(** An open repository: [iter_commits(since=...)]. *)
Record Repo := mk_Repo {
  iter_commits : datetime -> list Commit
}.

(** What there is at a path of the file system. *)
Inductive PathKind :=
| Missing
| NotARepository
| Repository (r : Repo).

(** [git.Repo(path)] of GitPython: [NoSuchPathError] for a path that does
    not exist, [InvalidGitRepositoryError] for one that exists and holds
    no repository. *)
Definition git_Repo (fs : pystr -> PathKind) (path : pystr) : result Repo :=
  match fs path with
  | Missing => Raise NoSuchPathError
  | NotARepository => Raise InvalidGitRepositoryError
  | Repository r => Ok r
  end.

(** ** The world: the clock and the calls made to the collaborators *)

Record Document := mk_Document {
  page_content : pystr;
  metadata : gmap pystr pystr
}.

Record World := mk_World {
  clock : nat -> datetime;        (* the n-th reading of [datetime.now()] *)
  ticks : nat;                    (* readings made so far *)
  since_log : list datetime;      (* the [since] of each [iter_commits] call *)
  collection : list Document      (* the vector store's collection *)
}.

Definition M (A : Type) : Type := World -> A * World.

Definition ret {A} (a : A) : M A := fun w => (a, w).

Definition bind {A B} (m : M A) (k : A -> M B) : M B :=
  fun w => let '(a, w') := m w in k a w'.

Notation "'do' x '<-' m ';' k" := (bind m (fun x => k))
  (at level 10, x name, m at level 100, k at level 200).

(** [datetime.now()] *)
Definition now : M datetime :=
  fun w => (clock w (ticks w),
            {| clock := clock w; ticks := S (ticks w);
               since_log := since_log w; collection := collection w |}).

(** [repo.iter_commits(since=since)] *)
Definition call_iter_commits (repo : Repo) (since : datetime) : M (list Commit) :=
  fun w => (iter_commits repo since,
            {| clock := clock w; ticks := ticks w;
               since_log := since_log w ++ [since]; collection := collection w |}).

(** ** progress_tracker.py *)

Module ProgressTracker.

Record t := mk { repo : Repo }.

Section Init.
(** [git.Repo(path)] *)
Variable Repo_open : pystr -> result Repo.

Definition __init__ (repo_path : pystr) : result t :=
  try r := Repo_open repo_path in Ok {| repo := r |}.
End Init.

Section Tracker.
Context {rt : PyRuntime}.

Definition test_suffixes : list pystr :=
  [py ".test.ts"; py ".spec.ts"; py "test.py"].

Definition ui_suffixes : list pystr :=
  [py ".css"; py ".scss"; py ".html"].

Definition _categorize_commit (commit : Commit) : pystr :=
  let msg := lower (message commit) in
  let files := diff_a_paths commit in
  if existsb (fun f => endswith_any f test_suffixes) files then py "testing"
  else if existsb (fun f => endswith_any f ui_suffixes) files then py "ui"
  else if contains (py "fix") msg || contains (py "bug") msg then py "bugfix"
  else if contains (py "feature") msg then py "feature"
  else if contains (py "refactor") msg then py "refactor"
  else py "other".

(** The loop body of [get_recent_changes]; [n] is [len(changes)]. *)
Definition change_of_commit (n : nat) (commit : Commit) : CodeChange :=
  {| cc_id := str_of_N (N.of_nat n);
     cc_timestamp := fromtimestamp (committed_date commit);
     cc_files_changed := diff_a_paths commit;
     cc_description := message commit;
     cc_category := _categorize_commit commit;
     cc_commit_hash := Some (hexsha commit);
     cc_metadata :=
       <[py "author" := author commit]>
       (<[py "lines_added" := str_of_N (insertions commit)]>
       (<[py "lines_deleted" := str_of_N (deletions commit)]> ∅)) |}.

Fixpoint changes_loop (changes : list CodeChange) (commits : list Commit)
  : list CodeChange :=
  match commits with
  | [] => changes
  | commit :: commits' =>
      changes_loop (changes ++ [change_of_commit (length changes) commit]) commits'
  end.

Definition get_recent_changes (self : t) (since : datetime) : M (list CodeChange) :=
  do commits <- call_iter_commits (repo self) since;
  ret (changes_loop [] commits).

(** What one extraction yields for a given [since]. *)
Definition extraction (self : t) (since : datetime) : list CodeChange :=
  changes_loop [] (iter_commits (repo self) since).

(** [tags] is [None] when omitted (the default of the source);
    [impact_level] is [None] when omitted, and then takes the
    default ["minor"] of the signature. *)
Definition create_progress_entry (self : t) (title description category : pystr)
    (tags : option (list pystr)) (impact_level : option pystr) : M ProgressEntry :=
  let impact_level := default (py "minor") impact_level in
  do t0 <- now;
  do recent_changes <- get_recent_changes self (replace_hour_minute t0 0 0);
  do t1 <- now;
  do t2 <- now;
  ret {| pe_id := timestamp_str t1;
         pe_date := t2;
         pe_title := title;
         pe_description := description;
         pe_changes := recent_changes;
         pe_category := category;
         pe_tags := match tags with
                    | Some ((_ :: _) as l) => l
                    | _ => []
                    end;
         pe_impact_level := impact_level |}.

End Tracker.

End ProgressTracker.

(** ** The vector store collaborator *)

(** A filter as the source builds it: [{"category": {"$in": [...]}, ...}]. *)
Abbreviation Filter := (gmap pystr (gmap pystr (list pystr))).

Class VectorStore := {
  Score : Type;
  (** [vector_store.similarity_search_with_score(query, k=k, filter=filter)]
      over the stored collection *)
  similarity_search_with_score :
    list Document -> pystr -> Z -> option Filter -> result (list (Document * Score))
}.

(** The Qdrant store behind the langchain wrapper. *)
Module Qdrant.

(** A condition of the filter sent to the server: the value of the
    metadata at a nested key is [cond_value]. *)
Record FieldCondition := mk_FieldCondition {
  cond_key : list pystr;
  cond_value : pystr
}.

(** [_qdrant_filter_from_dict] of the wrapper on a filter of [search]:
    a dict under a key gives, for each of its own keys and each value
    listed there, an equality on the nested key [<key>.<inner key>]; the
    wrapper knows no operator, so ["$in"] is such an inner key. *)
Definition build_conditions (f : Filter) : list FieldCondition :=
  flat_map (fun kc =>
              flat_map (fun ov => map (mk_FieldCondition [fst kc; fst ov]) (snd ov))
                       (map_to_list (snd kc)))
           (map_to_list f).

(** The value of a metadata at a nested key. The values of a metadata
    are strings, which have no inner key: only a key of one segment has
    a value. *)
Definition value_at (md : gmap pystr pystr) (key : list pystr) : option pystr :=
  match key with
  | [k] => md !! k
  | _ => None
  end.

Definition condition_holds (md : gmap pystr pystr) (c : FieldCondition) : bool :=
  bool_decide (value_at md (cond_key c) = Some (cond_value c)).

(** A document passes a filter when all its conditions hold ([must]);
    without a filter every document passes. *)
Definition passes (f : option Filter) (doc : Document) : bool :=
  match f with
  | Some f => forallb (condition_holds (metadata doc)) (build_conditions f)
  | None => true
  end.

(** [a] is at least as similar to the query as [b]. *)
Definition more_similar (a b : Document * Z) : Prop := (snd b <= snd a)%Z.

#[global] Instance more_similar_dec : RelDecision more_similar :=
  fun a b => decide (snd b <= snd a)%Z.

(** [similarity_search_with_score]: of the documents that pass the
    filter, the [k] most similar to the query, the most similar first.
    [score] is the similarity of a document to a query text, of which
    only the order matters; it stands for that of the embeddings. *)
Definition store (score : pystr -> Document -> Z) : VectorStore := {|
  Score := Z;
  similarity_search_with_score := fun docs text k f =>
    Ok (take (Z.to_nat k)
          (merge_sort more_similar
             (map (fun doc => (doc, score text doc)) (List.filter (passes f) docs))))
|}.

End Qdrant.

(** [vector_store.add_texts(texts, metadatas=metadatas)]: one document per
    text, appended to the collection. *)
Definition add_texts (texts : list pystr) (metadatas : list (gmap pystr pystr)) : M unit :=
  fun w => (tt,
            {| clock := clock w; ticks := ticks w; since_log := since_log w;
               collection := collection w
                 ++ zip_with mk_Document texts metadatas |}).

(** ** storage_service.py *)

Module ProgressStorage.

Section Storage.
Context {rt : PyRuntime} {vs : VectorStore}.

(** The line feed and the eight blanks that indent the template. *)
Definition nl : pystr := [10%N].
Definition indent : pystr := py "        ".

Definition metadata_get (md : gmap pystr pystr) (key : string) (dflt : pystr) : pystr :=
  default dflt (md !! py key).

Definition _format_changes (changes : list CodeChange) : pystr :=
  join nl
    (map (fun change =>
            py "- " ++ cc_description change ++ nl
            ++ py "  Files: " ++ join (py ", ") (cc_files_changed change) ++ nl
            ++ py "  Category: " ++ cc_category change ++ nl
            ++ py "  Impact: " ++ metadata_get (cc_metadata change) "lines_added" (py "0")
            ++ py " additions, "
            ++ metadata_get (cc_metadata change) "lines_deleted" (py "0")
            ++ py " deletions")
         changes).

(** The text of [add_entry]: the triple-quoted template, line by line. *)
Definition entry_text (entry : ProgressEntry) : pystr :=
  nl
  ++ indent ++ py "Title: " ++ pe_title entry ++ nl
  ++ indent ++ py "Date: " ++ datetime_str (pe_date entry) ++ nl
  ++ indent ++ py "Category: " ++ pe_category entry ++ nl
  ++ indent ++ py "Tags: " ++ join (py ", ") (pe_tags entry) ++ nl
  ++ indent ++ py "Impact: " ++ pe_impact_level entry ++ nl
  ++ indent ++ nl
  ++ indent ++ py "Description:" ++ nl
  ++ indent ++ pe_description entry ++ nl
  ++ indent ++ nl
  ++ indent ++ py "Changes:" ++ nl
  ++ indent ++ _format_changes (pe_changes entry) ++ nl
  ++ indent.

Definition entry_metadata (entry : ProgressEntry) : gmap pystr pystr :=
  <[py "id" := pe_id entry]>
  (<[py "date" := isoformat (pe_date entry)]>
  (<[py "category" := pe_category entry]>
  (<[py "tags" := json_dumps (pe_tags entry)]>
  (<[py "impact_level" := pe_impact_level entry]> ∅)))).

Definition add_entry (entry : ProgressEntry) : M unit :=
  add_texts [entry_text entry] [entry_metadata entry].

(** [metadata[key]] *)
Definition getitem (md : gmap pystr pystr) (key : string) : result pystr :=
  match md !! py key with
  | Some v => Ok v
  | None => Raise (KeyError (py key))
  end.

(** [page_content.split("\n")[1].replace("Title: ", "").strip()] *)
Definition title_of_page_content (content : pystr) : result pystr :=
  match split content nl !! 1%nat with
  | Some line => Ok (strip (replace line (py "Title: ") []))
  | None => Raise IndexError
  end.

(** The body of the loop of [search]: one result back to an entry. *)
Definition entry_of_document (doc : Document) : result ProgressEntry :=
  let md := metadata doc in
  try id := getitem md "id" in
  try date_s := getitem md "date" in
  try date := from_option Ok (Raise ValueError) (fromisoformat date_s) in
  try title := title_of_page_content (page_content doc) in
  try category := getitem md "category" in
  try tags_s := getitem md "tags" in
  try tags := from_option Ok (Raise JSONDecodeError) (json_loads tags_s) in
  try impact_level := getitem md "impact_level" in
  Ok {| pe_id := id;
        pe_date := date;
        pe_title := title;
        pe_description := page_content doc;
        pe_category := category;
        pe_tags := tags;
        pe_impact_level := impact_level;
        pe_changes := [] |}.

(** [if l:] for an optional list: neither [None] nor empty. *)
Definition truthy {A} (l : option (list A)) : bool :=
  match l with
  | Some (_ :: _) => true
  | _ => false
  end.

Definition in_clause (vals : option (list pystr)) : gmap pystr (list pystr) :=
  {[ py "$in" := default [] vals ]}.

Definition filter_of_query (query : SearchQuery) : option Filter :=
  let filter_dict : Filter := ∅ in
  let filter_dict :=
    if truthy (sq_categories query)
    then <[py "category" := in_clause (sq_categories query)]> filter_dict
    else filter_dict in
  let filter_dict :=
    if truthy (sq_tags query)
    then <[py "tags" := in_clause (sq_tags query)]> filter_dict
    else filter_dict in
  if bool_decide (filter_dict = ∅) then None else Some filter_dict.

(** The documents [search] gets from the collaborator. *)
Definition search_results (docs : list Document) (query : SearchQuery) (limit : Z)
  : result (list (Document * Score)) :=
  similarity_search_with_score docs (sq_query query) limit (filter_of_query query).

Definition search (query : SearchQuery) (limit : Z) : M (result (list ProgressEntry)) :=
  fun w =>
    (try results := search_results (collection w) query limit in
     rmap (fun r => entry_of_document (fst r)) results,
     w).

End Storage.

End ProgressStorage.

(** ** main.py: POST /sync/ *)

Module Main.

Section Sync.
Context {rt : PyRuntime} {vs : VectorStore}.

(** [changes_by_category]: a dict in insertion order. *)
Fixpoint group_append (groups : list (pystr * list CodeChange)) (change : CodeChange)
  : list (pystr * list CodeChange) :=
  match groups with
  | [] => [(cc_category change, [change])]
  | (category, l) :: groups' =>
      if bool_decide (category = cc_category change)
      then (category, l ++ [change]) :: groups'
      else (category, l) :: group_append groups' change
  end.

Definition group_by_category (changes : list CodeChange)
  : list (pystr * list CodeChange) :=
  fold_left group_append changes [].

(** The loop over [changes_by_category.items()]. *)
Fixpoint sync_loop (tracker : ProgressTracker.t)
    (groups : list (pystr * list CodeChange)) (entries : list ProgressEntry)
  : M (list ProgressEntry) :=
  match groups with
  | [] => ret entries
  | (category, category_changes) :: groups' =>
      match category_changes with
      | [] => sync_loop tracker groups' entries
      | _ :: _ =>
          let summary :=
            py "Daily progress update: "
            ++ str_of_N (N.of_nat (length category_changes))
            ++ py " " ++ category ++ py " changes" in
          let description :=
            py "Automated progress entry from git changes:" ++ [10%N; 10%N]
            ++ join [10%N] (map (fun c => py "- " ++ cc_description c) category_changes) in
          do entry <- ProgressTracker.create_progress_entry tracker
                        summary description category (Some [category]) (Some (py "minor"));
          do _u <- ProgressStorage.add_entry entry;
          sync_loop tracker groups' (entries ++ [entry])
      end
  end.

(** The entries [sync_from_git] creates, with the changes it grouped. *)
Definition sync_entries (tracker : ProgressTracker.t)
  : M (list CodeChange * list ProgressEntry) :=
  do t0 <- now;
  do changes <- ProgressTracker.get_recent_changes tracker (replace_hour_minute t0 0 0);
  do entries <- sync_loop tracker (group_by_category changes) [];
  ret (changes, entries).

(** An entry that carries the whole result of one extraction, made at
    some reading of the clock [c]. *)
Definition carries_extraction (tracker : ProgressTracker.t) (c : nat -> datetime)
    (entry : ProgressEntry) : Prop :=
  exists n, pe_changes entry
            = ProgressTracker.extraction tracker (replace_hour_minute (c n) 0 0).

(** The response: the message and [entries_created]. *)
Definition sync_from_git (tracker : ProgressTracker.t) : M (pystr * nat) :=
  do r <- sync_entries tracker;
  ret (py "Successfully synced " ++ str_of_N (N.of_nat (length (fst r))) ++ py " changes",
       length (snd r)).

End Sync.

End Main.

(** [GET /categories/]: the fixed list of labels. *)
Definition get_categories : list pystr :=
  [py "feature"; py "bugfix"; py "refactor"; py "testing"; py "ui"; py "other"].

(** ** Test doubles

    Concrete collaborators and a concrete runtime, on which the
    definitions above evaluate. *)

Module Double.

(** A call in the afternoon, and the epoch. *)
Definition afternoon : datetime := mk_datetime 2024 3 15 14 30 45 123456.

Definition epoch : datetime := mk_datetime 1970 1 1 0 0 0 0.

(** A runtime that prints a datetime field by field and a tag list as a
    JSON array, reads back the dates and the tag lists of the examples,
    and leaves the code points beyond ASCII unchanged by [lower]. *)
Definition two_digits (z : Z) : pystr :=
  (if (z <? 10)%Z then py "0" else []) ++ str_of_N (Z.to_N z).

Definition print_datetime (sep : pystr) (d : datetime) : pystr :=
  str_of_N (Z.to_N (year d)) ++ py "-" ++ two_digits (month d) ++ py "-"
  ++ two_digits (day d) ++ sep ++ two_digits (hour d) ++ py ":"
  ++ two_digits (minute d) ++ py ":" ++ two_digits (second d)
  ++ py "." ++ str_of_N (Z.to_N (microsecond d)).

Definition print_tags (l : list pystr) : pystr :=
  py "[" ++ join (py ", ") (map (fun tag => [34%N] ++ tag ++ [34%N]) l) ++ py "]".

Definition known_dates : list datetime := [afternoon; epoch].

Definition known_tags : list (list pystr) := [[]; [py "bugfix"]; [py "feature"]].

#[export] Instance runtime : PyRuntime := {|
  datetime_str := print_datetime (py " ");
  isoformat := print_datetime (py "T");
  fromisoformat := fun s =>
    List.find (fun d => bool_decide (print_datetime (py "T") d = s)) known_dates;
  fromtimestamp := fun _ => epoch;
  timestamp_str := fun d => str_of_N (Z.to_N (second d)) ++ py ".0";
  json_dumps := print_tags;
  json_loads := fun s => List.find (fun l => bool_decide (print_tags l = s)) known_tags;
  unicode_lower := fun _ _ c => [c]
|}.

(** A vector store that ranks nothing: the first [k] documents that pass
    the filter, in stored order. *)
#[export] Instance store : VectorStore := {|
  Score := unit;
  similarity_search_with_score := fun docs _ k f =>
    Ok (map (fun doc => (doc, tt))
          (take (Z.to_nat k) (List.filter (Qdrant.passes f) docs)))
|}.

(** A store that finds a document the more similar to a query the
    longer its text. *)
Definition by_length (text : pystr) (doc : Document) : Z :=
  Z.of_nat (length (page_content doc)).

(** [since <= d], field by field. *)
Definition datetime_fields (d : datetime) : list Z :=
  [year d; month d; day d; hour d; minute d; second d; microsecond d].

Fixpoint lex_leb (a b : list Z) : bool :=
  match a, b with
  | x :: a', y :: b' => (x <? y)%Z || ((x =? y)%Z && lex_leb a' b')
  | _, _ => true
  end.

Definition datetime_leb (a b : datetime) : bool :=
  lex_leb (datetime_fields a) (datetime_fields b).

(** A repository given by its commits, newest first, each with the
    local time it was committed at: [iter_commits(since)] yields those
    committed at or after [since]. *)
Definition repo_of (commits : list (datetime * Commit)) : Repo :=
  {| iter_commits := fun since =>
       map snd (List.filter (fun c => datetime_leb since (fst c)) commits) |}.

(** The file system of the examples: a repository at [/srv/repo], a
    directory without one at [/tmp/empty], and nothing else. *)
Definition file_system (commits : list (datetime * Commit)) (path : pystr) : PathKind :=
  if bool_decide (path = py "/srv/repo") then Repository (repo_of commits)
  else if bool_decide (path = py "/tmp/empty") then NotARepository
  else Missing.

(** A world whose clock reads [t] and then advances one microsecond a
    reading, with nothing stored and no call made yet. *)
Definition world_at (t : datetime) : World :=
  {| clock := fun n =>
       {| year := year t; month := month t; day := day t; hour := hour t;
          minute := minute t; second := second t;
          microsecond := microsecond t + Z.of_nat n |};
     ticks := 0; since_log := []; collection := [] |}.

Definition commit_of (msg : string) (files : list string) : Commit :=
  {| committed_date := 0; message := py msg; diff_a_paths := map py files;
     hexsha := py "0a1b2c3"; author := py "dev"; insertions := 3; deletions := 1 |}.

Definition tracker_of (commits : list (datetime * Commit)) : ProgressTracker.t :=
  ProgressTracker.mk (repo_of commits).

(** A commit made half a minute after the midnight before [afternoon]. *)
Definition early_commit : datetime * Commit :=
  (mk_datetime 2024 3 15 0 0 30 0, commit_of "Fix crash on startup" ["src/api.py"]).

(** An entry as a caller would pass it to [add_entry], with the change
    of [early_commit], and a world in which entries have been stored. *)
Definition entry_with_title (title : pystr) (category : string) : ProgressEntry :=
  {| pe_id := py "1710513045.123456";
     pe_date := afternoon;
     pe_title := title;
     pe_description := py "Notes of the day";
     pe_changes := ProgressTracker.changes_loop [] [snd early_commit];
     pe_category := py category;
     pe_tags := [py category];
     pe_impact_level := py "minor" |}.

Definition entry_titled (title category : string) : ProgressEntry :=
  entry_with_title (py title) category.

Definition world_with (entries : list ProgressEntry) : World :=
  fold_left (fun w entry => snd (ProgressStorage.add_entry entry w))
            entries (world_at afternoon).

Definition query_of (text : string) (categories : option (list pystr)) : SearchQuery :=
  {| sq_query := py text; sq_categories := categories;
     sq_date_range := None; sq_tags := None |}.

End Double.

(** ** storage_service.py: the collection at start-up *)

Module StoreSetup.

(** [qdrant_client.models.Distance] *)
Inductive Distance := COSINE | EUCLID | DOT | MANHATTAN.

(** A collection of the Qdrant server: its name and its [VectorParams]. *)
Record CollectionInfo := mk_CollectionInfo {
  coll_name : pystr;
  vector_size : N;
  vector_distance : Distance
}.

Definition collection_name : pystr := py "progress_entries".

(** [client.create_collection(collection_name=..., vectors_config=...)]:
    the server has one more collection. *)
Definition create_collection (name : pystr) (params : N * Distance)
    (collections : list CollectionInfo) : list CollectionInfo :=
  collections ++ [mk_CollectionInfo name (fst params) (snd params)].

(** [_initialize_store], on the collections of the server;
    [dimension] is [get_sentence_embedding_dimension()]. *)
Definition _initialize_store (dimension : N) (collections : list CollectionInfo)
  : list CollectionInfo :=
  let exists_ :=
    existsb (fun c => bool_decide (coll_name c = collection_name)) collections in
  if negb exists_
  then create_collection collection_name (dimension, COSINE) collections
  else collections.

End StoreSetup.

(** ** issue_tracker.py *)

Module GitHubIssueTracker.

(** The calls made to GitHub, in order. *)
Inductive Call :=
| get_issue (number : Z)
| create_comment (number : Z) (body : pystr)
| edit (number : Z) (state : pystr)
| repo_create_issue (title body : pystr) (labels : list pystr).

(** A computation that logs its calls and may raise. *)
Definition G (A : Type) : Type := list Call -> result A * list Call.

Definition gret {A} (a : A) : G A := fun log => (Ok a, log).

Definition gbind {A B} (m : G A) (k : A -> G B) : G B :=
  fun log =>
    match m log with
    | (Ok a, log') => k a log'
    | (Raise e, log') => (Raise e, log')
    end.

Definition graise {A} (e : exn) : G A := fun log => (Raise e, log).

Section Tracker.
Context {rt : PyRuntime}.

(** [int(s)]; [None] stands for its ValueError. *)
Variable int_of_str : pystr -> option Z.

(** What GitHub answers to a call: [None] when it goes through, the
    exception otherwise. *)
Variable github_fails : Call -> option exn.

(** The number GitHub gives to the issue it creates. *)
Variable new_number : pystr -> pystr -> list pystr -> N.

Definition call (c : Call) : G unit :=
  fun log =>
    match github_fails c with
    | None => (Ok tt, log ++ [c])
    | Some e => (Raise e, log ++ [c])
    end.

Definition create_issue (title description : pystr) (labels : list pystr) : G pystr :=
  gbind (call (repo_create_issue title description labels)) (fun _ =>
  gret (str_of_N (new_number title description labels))).

Definition update_issue (issue_id status : pystr) (comment : option pystr) : G unit :=
  match int_of_str issue_id with
  | None => graise ValueError
  | Some number =>
      gbind (call (get_issue number)) (fun _ =>
      gbind (match comment with
             | Some ((_ :: _) as body) => call (create_comment number body)
             | _ => gret tt
             end) (fun _ =>
      if bool_decide (lower status = py "closed")
      then call (edit number (py "closed"))
      else call (edit number (py "open"))))
  end.

(** [_format_changes] of the issue tracker: markdown bullets. *)
Definition _format_changes (changes : list CodeChange) : pystr :=
  join [10%N]
    (map (fun change =>
            py "- " ++ cc_description change ++ [10%N]
            ++ py "  - Files: " ++ join (py ", ") (cc_files_changed change) ++ [10%N]
            ++ py "  - Category: " ++ cc_category change)
         changes).

(** The comment of [link_to_progress]: the template, line by line. *)
Definition progress_comment (entry : ProgressEntry) : pystr :=
  [10%N]
  ++ py "## Progress Update" ++ [10%N]
  ++ py "- Title: " ++ pe_title entry ++ [10%N]
  ++ py "- Date: " ++ datetime_str (pe_date entry) ++ [10%N]
  ++ py "- Category: " ++ pe_category entry ++ [10%N]
  ++ py "- Impact: " ++ pe_impact_level entry ++ [10%N]
  ++ py "- Tags: " ++ join (py ", ") (pe_tags entry) ++ [10%N]
  ++ [10%N]
  ++ py "### Description" ++ [10%N]
  ++ pe_description entry ++ [10%N]
  ++ [10%N]
  ++ py "### Changes" ++ [10%N]
  ++ _format_changes (pe_changes entry) ++ [10%N]
  ++ py "        ".

Definition link_to_progress (issue_id : pystr) (progress_entry : ProgressEntry) : G unit :=
  match int_of_str issue_id with
  | None => graise ValueError
  | Some number =>
      gbind (call (get_issue number)) (fun _ =>
      call (create_comment number (progress_comment progress_entry)))
  end.

End Tracker.

End GitHubIssueTracker.

(** ** cli.py: the query of the search command *)

Module Cli.

(** [SearchQuery(query=query, categories=list(category) if category else
    None, tags=list(tags) if tags else None)]; the options that may be
    repeated arrive as tuples, empty when not given. *)
Definition search_query (query : pystr) (category tags : list pystr) : SearchQuery :=
  {| sq_query := query;
     sq_categories := match category with [] => None | _ :: _ => Some category end;
     sq_date_range := None;
     sq_tags := match tags with [] => None | _ :: _ => Some tags end |}.

End Cli.

(** ** Vocabulary of the properties *)

(** The keys of the metadata that [add_entry] stores. *)
Definition metadata_keys : list pystr :=
  [py "id"; py "date"; py "category"; py "tags"; py "impact_level"].

(** The changes of [commits], numbered from [n]. *)
Fixpoint changes_from {rt : PyRuntime} (n : nat) (commits : list Commit) : list CodeChange :=
  match commits with
  | [] => []
  | commit :: commits' =>
      ProgressTracker.change_of_commit n commit :: changes_from (S n) commits'
  end.

(** The block of the stored text for a commit, as the tracker and the
    storage make it together. *)
Definition commit_block {rt : PyRuntime} (commit : Commit) : pystr :=
  py "- " ++ message commit ++ [10%N]
  ++ py "  Files: " ++ join (py ", ") (diff_a_paths commit) ++ [10%N]
  ++ py "  Category: " ++ ProgressTracker._categorize_commit commit ++ [10%N]
  ++ py "  Impact: " ++ str_of_N (insertions commit) ++ py " additions, "
  ++ str_of_N (deletions commit) ++ py " deletions".

(** The groups of [/sync/] that are not empty. *)
Definition nonempty_groups (groups : list (pystr * list CodeChange))
  : list (pystr * list CodeChange) :=
  List.filter (fun g => match snd g with [] => false | _ :: _ => true end) groups.

(** The document [add_entry] stores for an entry. *)
Definition document_of {rt : PyRuntime} (entry : ProgressEntry) : Document :=
  mk_Document (ProgressStorage.entry_text entry) (ProgressStorage.entry_metadata entry).

(** The stored text up to the description, and what the parse of
    [search] makes of a stored title. *)
Definition text_before_description {rt : PyRuntime} (entry : ProgressEntry) : pystr :=
  [10%N]
  ++ ProgressStorage.indent ++ py "Title: " ++ pe_title entry ++ [10%N]
  ++ ProgressStorage.indent ++ py "Date: " ++ datetime_str (pe_date entry) ++ [10%N]
  ++ ProgressStorage.indent ++ py "Category: " ++ pe_category entry ++ [10%N]
  ++ ProgressStorage.indent ++ py "Tags: " ++ join (py ", ") (pe_tags entry) ++ [10%N]
  ++ ProgressStorage.indent ++ py "Impact: " ++ pe_impact_level entry ++ [10%N]
  ++ ProgressStorage.indent ++ [10%N]
  ++ ProgressStorage.indent ++ py "Description:" ++ [10%N]
  ++ ProgressStorage.indent.

Definition recovered_title (title : pystr) : pystr :=
  strip (replace (first_line title) (py "Title: ") []).

(** The entry that [/sync/] makes for a group of changes. *)
Definition sync_entry_of (g : pystr * list CodeChange) (entry : ProgressEntry) : Prop :=
  pe_category entry = fst g
  /\ pe_tags entry = [fst g]
  /\ pe_impact_level entry = py "minor"
  /\ pe_title entry =
     py "Daily progress update: " ++ str_of_N (N.of_nat (length (snd g)))
     ++ py " " ++ fst g ++ py " changes".

(** A group of [changes_by_category] as it should be: not empty, and of
    changes of its own category. *)
Definition group_ok (g : pystr * list CodeChange) : Prop :=
  snd g <> [] /\ Forall (fun change => cc_category change = fst g) (snd g).

(** The comment call of [update_issue], if any. *)
Definition comment_calls (number : Z) (comment : option pystr)
  : list GitHubIssueTracker.Call :=
  match comment with
  | Some ((_ :: _) as body) => [GitHubIssueTracker.create_comment number body]
  | _ => []
  end.

(** The distinct elements of a list, each at its first occurrence. *)
Fixpoint nub (l : list pystr) : list pystr :=
  match l with
  | [] => []
  | x :: l' => x :: List.filter (fun y => negb (bool_decide (y = x))) (nub l')
  end.

(** The changes of one category, in their order. *)
Definition changes_of (category : pystr) (changes : list CodeChange) : list CodeChange :=
  List.filter (fun change => bool_decide (cc_category change = category)) changes.

(** The groups of [/sync/] as they should be: one for each category, in
    the order in which the categories first occur, with the changes of
    the category in their order. *)
Definition groups_by_first_occurrence (changes : list CodeChange)
  : list (pystr * list CodeChange) :=
  map (fun category => (category, changes_of category changes))
      (nub (map cc_category changes)).

(** More test doubles. *)
Module Double2.

(** A document written to the collection by another program: text on one
    line, no metadata. *)
Definition foreign_document : Document := mk_Document (py "a note") ∅.

(** A GitHub on which every call goes through and whose next issue has
    the number 42, and an [int] that reads the numbers of the examples. *)
Definition github_up (c : GitHubIssueTracker.Call) : option exn := None.

Definition number_42 (title body : pystr) (labels : list pystr) : N := 42.

Definition int_of_known (s : pystr) : option Z :=
  List.find (fun z => bool_decide (str_of_N (Z.to_N z) = s)) [7%Z; 42%Z].

(** A collection shared with that program: the bugfix entry of the
    examples, then the foreign document. *)
Definition shared_world : World :=
  {| clock := clock (Double.world_at Double.afternoon);
     ticks := 0; since_log := [];
     collection :=
       [document_of (rt := Double.runtime) (Double.entry_titled "Crash fixed" "bugfix");
        foreign_document] |}.

(** A query by tags alone. *)
Definition query_by_tags (text : string) (tags : list pystr) : SearchQuery :=
  {| sq_query := py text; sq_categories := None;
     sq_date_range := None; sq_tags := Some tags |}.

(** A GitHub that refuses comments; the exception stands for that of
    the GitHub client. *)
Definition github_comments_down (c : GitHubIssueTracker.Call) : option exn :=
  match c with
  | GitHubIssueTracker.create_comment _ _ => Some StorageUnavailableError
  | _ => None
  end.

End Double2.

(** * Properties *)

(** ** Strings *)

Section StringFacts.

Lemma startswith_app (p r : pystr) : startswith (p ++ r) p = true.
Proof.
  induction p as [|c p IH]; cbn [startswith app]; [done|].
  by rewrite N.eqb_refl, IH.
Qed.

Lemma startswith_inv (s p : pystr) :
  startswith s p = true -> exists r, s = p ++ r.
Proof.
  revert s. induction p as [|c p IH]; intros s Hs.
  - by exists s.
  - destruct s as [|d s]; cbn [startswith] in Hs; [done|].
    apply andb_true_iff in Hs as [Hc Hs].
    apply N.eqb_eq in Hc. subst d.
    destruct (IH _ Hs) as [r ->]. by exists r.
Qed.

Lemma endswith_app (p suffix : pystr) : endswith (p ++ suffix) suffix = true.
Proof.
  unfold endswith. rewrite rev_app_distr. apply startswith_app.
Qed.

Lemma endswith_inv (s suffix : pystr) :
  endswith s suffix = true -> exists p, s = p ++ suffix.
Proof.
  unfold endswith. intros Hs.
  destruct (startswith_inv _ _ Hs) as [r Hr].
  exists (rev r).
  rewrite <- (rev_involutive s), Hr, rev_app_distr.
  by rewrite rev_involutive.
Qed.

Lemma endswith_any_true (s : pystr) (suffixes : list pystr) :
  endswith_any s suffixes = true <->
  exists suffix p, suffix ∈ suffixes /\ s = p ++ suffix.
Proof.
  unfold endswith_any. rewrite existsb_exists. split.
  - intros (suffix & Hin & Hs). apply endswith_inv in Hs as [p ->].
    exists suffix, p. by rewrite list_elem_of_In.
  - intros (suffix & p & Hin & ->). exists suffix.
    split; [by apply list_elem_of_In | apply endswith_app].
Qed.

Lemma contains_unfold (sub s : pystr) :
  contains sub s =
  startswith s sub || match s with [] => false | _ :: s' => contains sub s' end.
Proof. by destruct s. Qed.

Lemma contains_app (sub pre post : pystr) :
  contains sub (pre ++ sub ++ post) = true.
Proof.
  induction pre as [|c pre IH].
  - rewrite contains_unfold, app_nil_l. by rewrite startswith_app.
  - rewrite contains_unfold, <- app_comm_cons, IH. apply orb_true_r.
Qed.

Lemma contains_inv (sub s : pystr) :
  contains sub s = true -> exists pre post, s = pre ++ sub ++ post.
Proof.
  induction s as [|c s IH]; rewrite contains_unfold; intros Hc.
  - rewrite orb_false_r in Hc. apply startswith_inv in Hc as [r ->].
    by exists [], r.
  - apply orb_true_iff in Hc as [Hc|Hc].
    + apply startswith_inv in Hc as [r ->]. by exists [], r.
    + destruct (IH Hc) as (pre & post & ->). by exists (c :: pre), post.
Qed.

End StringFacts.

(** ** The categorizer *)

Section LowerFacts.
Context {rt : PyRuntime}.

Lemma lower_from_app (whole : pystr) (i : nat) (a b : pystr) :
  lower_from whole i (a ++ b) =
  lower_from whole i a ++ lower_from whole (i + length a) b.
Proof.
  revert i. induction a as [|c a IH]; intros i; cbn [lower_from app length].
  - by rewrite Nat.add_0_r.
  - rewrite IH, <- app_assoc. do 3 f_equal. lia.
Qed.

Lemma ascii_lower_variant (c p : N) :
  (97 <= p <= 122)%N -> c = p \/ (c + 32)%N = p ->
  (c <? 128)%N = true /\ ascii_lower c = p.
Proof.
  intros Hp Hc. unfold ascii_lower. split.
  - apply N.ltb_lt. lia.
  - destruct Hc as [->| <-].
    + replace (p <=? 90)%N with false by (symmetry; apply N.leb_gt; lia).
      by rewrite andb_false_r.
    + replace (65 <=? c)%N with true by (symmetry; apply N.leb_le; lia).
      replace (c <=? 90)%N with true by (symmetry; apply N.leb_le; lia).
      done.
Qed.

Lemma lower_from_variant (whole : pystr) (i : nat) (w pattern : pystr) :
  lowercase_letters pattern -> case_variant w pattern ->
  lower_from whole i w = pattern.
Proof.
  intros Hp Hw. revert i Hp.
  induction Hw as [|c p w pattern Hc Hw IH]; intros i Hp; [done|].
  apply Forall_cons in Hp as [Hp Hps].
  destruct (ascii_lower_variant c p Hp Hc) as [Hlt Hlow].
  cbn [lower_from]. rewrite Hlt, Hlow, (IH _ Hps). done.
Qed.

(** A message that contains the pattern in any letter case contains
    the pattern itself once lowered. *)
Lemma contains_lower (pattern pre w post : pystr) :
  lowercase_letters pattern -> case_variant w pattern ->
  contains pattern (lower (pre ++ w ++ post)) = true.
Proof.
  intros Hp Hw. unfold lower.
  rewrite !lower_from_app, (lower_from_variant _ _ w pattern Hp Hw).
  apply contains_app.
Qed.

End LowerFacts.

Section Categorizer.
Context {rt : PyRuntime}.
Import ProgressTracker.

Lemma existsb_endswith_any (files : list pystr) (suffixes : list pystr) :
  existsb (fun f => endswith_any f suffixes) files = true <->
  exists f suffix p, f ∈ files /\ suffix ∈ suffixes /\ f = p ++ suffix.
Proof.
  rewrite existsb_exists. split.
  - intros (f & Hf & Hs). apply endswith_any_true in Hs as (suffix & p & ? & ?).
    exists f, suffix, p. by rewrite list_elem_of_In.
  - intros (f & suffix & p & Hf & Hs & Hp). exists f.
    split; [by apply list_elem_of_In|].
    apply endswith_any_true. by exists suffix, p.
Qed.

(** C3. Precedence law: when some file path of the commit ends in one
    of the test-file suffixes, the category is testing, whatever the
    message says. *)
Theorem categorize_testing_precedes_message (commit : Commit) :
  (exists f suffix p,
      f ∈ diff_a_paths commit /\ suffix ∈ test_suffixes /\ f = p ++ suffix) ->
  _categorize_commit commit = py "testing".
Proof.
  intros Htest. apply existsb_endswith_any in Htest.
  unfold _categorize_commit. by rewrite Htest.
Qed.

(** C4. The categorizer is a function of the commit, defined on every
    commit, and its label is always one of the six of the fixed
    enumeration. *)
Theorem categorize_in_enumeration (commit : Commit) :
  _categorize_commit commit ∈ get_categories.
Proof.
  unfold _categorize_commit, get_categories.
  repeat match goal with
         | |- context [if ?b then _ else _] => destruct b
         end; set_solver.
Qed.

(** C5. A message that contains "fix" or "bug" in any letter case, with
    no file ending in a test-file suffix nor in a stylesheet or markup
    extension, is categorized as bugfix. *)
Theorem categorize_bugfix (commit : Commit) (pre w post : pystr) :
  message commit = pre ++ w ++ post ->
  case_variant w (py "fix") \/ case_variant w (py "bug") ->
  (forall f suffix p,
      f ∈ diff_a_paths commit -> suffix ∈ test_suffixes ++ ui_suffixes ->
      f <> p ++ suffix) ->
  _categorize_commit commit = py "bugfix".
Proof.
  intros Hmsg Hw Hfiles. unfold _categorize_commit.
  destruct (existsb (fun f => endswith_any f test_suffixes) _) eqn:Htest.
  { apply existsb_endswith_any in Htest as (f & suffix & p & Hf & Hs & Hp).
    exfalso. apply (Hfiles f suffix p Hf); [|done].
    apply elem_of_app. by left. }
  destruct (existsb (fun f => endswith_any f ui_suffixes) _) eqn:Hui.
  { apply existsb_endswith_any in Hui as (f & suffix & p & Hf & Hs & Hp).
    exfalso. apply (Hfiles f suffix p Hf); [|done].
    apply elem_of_app. by right. }
  rewrite Hmsg.
  assert (lowercase_letters (py "fix")) as Hfix
      by (repeat constructor; vm_compute; congruence).
  assert (lowercase_letters (py "bug")) as Hbug
      by (repeat constructor; vm_compute; congruence).
  destruct Hw as [Hw|Hw].
  - by rewrite (contains_lower _ pre w post Hfix Hw).
  - rewrite (contains_lower _ pre w post Hbug Hw). by rewrite orb_true_r.
Qed.

End Categorizer.

(** C3 at the example of the specification: [app.test.ts] with the
    message [Fix crash on startup]. *)
Lemma categorize_testing_precedes_message_witness :
  ProgressTracker._categorize_commit (rt := Double.runtime)
    (Double.commit_of "Fix crash on startup" ["app.test.ts"]) = py "testing".
Proof.
  apply categorize_testing_precedes_message.
  exists (py "app.test.ts"), (py ".test.ts"), (py "app").
  split; [|split]; [set_solver | set_solver | reflexivity].
Defined.

(** C5 at the example of the specification: [src/api.py] with the
    message [Fix crash on startup]. *)
Lemma categorize_bugfix_witness :
  ProgressTracker._categorize_commit (rt := Double.runtime)
    (Double.commit_of "Fix crash on startup" ["src/api.py"]) = py "bugfix".
Proof.
  apply (categorize_bugfix _ [] (py "Fix") (py " crash on startup")).
  - reflexivity.
  - left. unfold case_variant. cbv [py list_ascii_of_string map].
    repeat (constructor; [first [by left | by right]|]).
    constructor.
  - intros f suffix p Hf Hs ->.
    apply list_elem_of_singleton in Hf.
    apply (f_equal (fun s => endswith s suffix)) in Hf.
    rewrite endswith_app in Hf.
    repeat (apply elem_of_cons in Hs as [->|Hs]; [vm_compute in Hf; discriminate|]).
    by apply elem_of_nil in Hs.
Defined.

(** The examples of the specification. *)
Example categorize_examples :
  map (ProgressTracker._categorize_commit (rt := Double.runtime))
      [Double.commit_of "Fix crash on startup" ["src/api.py"];
       Double.commit_of "Fix crash on startup" ["app.test.ts"];
       Double.commit_of "add feature" ["styles/main.css"];
       Double.commit_of "Refactor the FEATURE flags" ["src/flags.py"];
       Double.commit_of "Bump version" ["setup.cfg"]]
  = [py "bugfix"; py "testing"; py "ui"; py "feature"; py "other"].
Proof. reflexivity. Qed.

(** ** The progress assembler *)

Section Assembler.
Context {rt : PyRuntime}.
Import ProgressTracker.

Lemma get_recent_changes_run (self : t) (since : datetime) (w : World) :
  get_recent_changes self since w =
  (extraction self since,
   {| clock := clock w; ticks := ticks w;
      since_log := since_log w ++ [since]; collection := collection w |}).
Proof. reflexivity. Qed.

(** The [since] that [create_progress_entry] passes on is the reading of
    the clock with its hour and minute set to zero. *)
Lemma create_progress_entry_since (self : t) (title description category : pystr)
    (tags : option (list pystr)) (impact_level : option pystr) (w : World) :
  since_log (snd (create_progress_entry self title description category
                    tags impact_level w)) =
  since_log w ++ [replace_hour_minute (clock w (ticks w)) 0 0].
Proof. reflexivity. Qed.

(** That is the start of the day only on a reading with neither seconds
    nor microseconds. *)
Lemma replace_hour_minute_start_of_day (d : datetime) :
  replace_hour_minute d 0 0 = start_of_day d <->
  second d = 0%Z /\ microsecond d = 0%Z.
Proof.
  unfold replace_hour_minute, start_of_day. split.
  - intros Heq. by injection Heq.
  - by intros [-> ->].
Qed.

(** The changes of the entry are the whole result of that extraction,
    whatever the other arguments. *)
Lemma create_progress_entry_changes (self : t) (title description category : pystr)
    (tags : option (list pystr)) (impact_level : option pystr) (w : World) :
  pe_changes (fst (create_progress_entry self title description category
                     tags impact_level w)) =
  extraction self (replace_hour_minute (clock w (ticks w)) 0 0).
Proof. reflexivity. Qed.

Lemma create_progress_entry_changes_independent (self : t)
    (title description category title' description' category' : pystr)
    (tags tags' : option (list pystr)) (impact_level impact_level' : option pystr)
    (w : World) :
  pe_changes (fst (create_progress_entry self title description category
                     tags impact_level w)) =
  pe_changes (fst (create_progress_entry self title' description' category'
                     tags' impact_level' w)).
Proof. reflexivity. Qed.

Lemma create_progress_entry_clock (self : t) (title description category : pystr)
    (tags : option (list pystr)) (impact_level : option pystr) (w : World) :
  clock (snd (create_progress_entry self title description category
                tags impact_level w)) = clock w.
Proof. reflexivity. Qed.

(** C9. With [tags] omitted the entry has no tag; with [impact_level]
    omitted it is "minor"; and any [impact_level] given, within the
    enumeration or not, is returned as it is: the call has no failing
    path. *)
Theorem create_progress_entry_parameters (self : t)
    (title description category : pystr) (w : World) :
  (forall impact_level,
      pe_tags (fst (create_progress_entry self title description category
                      None impact_level w)) = [])
  /\ (forall tags,
      pe_impact_level (fst (create_progress_entry self title description category
                              tags None w)) = py "minor")
  /\ (forall tags s,
      pe_impact_level (fst (create_progress_entry self title description category
                              tags (Some s) w)) = s).
Proof. repeat split. Qed.

End Assembler.

(** ** Opening the repository *)

Section Opening.
Import ProgressTracker.

(** The constructor raises exactly what [git.Repo] raises: it has no
    handler and no other step. *)
Lemma init_propagates (Repo_open : pystr -> result Repo) (path : pystr) (e : exn) :
  __init__ Repo_open path = Raise e <-> Repo_open path = Raise e.
Proof.
  unfold __init__. destruct (Repo_open path); simpl; split; congruence.
Qed.

(** C7, amended. Over a path that is not a git repository, the
    constructor fails with the exception of [git.Repo], as it is:
    [NoSuchPathError] when the path does not exist,
    [InvalidGitRepositoryError] when it exists and holds no repository,
    and so with no other error. *)
Theorem init_invalid_path (fs : pystr -> PathKind) (path : pystr) :
  (forall r, fs path <> Repository r) ->
  (fs path = Missing /\ __init__ (git_Repo fs) path = Raise NoSuchPathError)
  \/ (fs path = NotARepository
      /\ __init__ (git_Repo fs) path = Raise InvalidGitRepositoryError).
Proof.
  intros Hinvalid. unfold __init__, git_Repo.
  destruct (fs path) as [| |r] eqn:Hkind.
  - by left.
  - by right.
  - by destruct (Hinvalid r).
Qed.

End Opening.

(** C7 on the file system of the examples, at the directory without a
    repository. *)
Lemma init_invalid_path_witness :
  (Double.file_system [] (py "/tmp/empty") = Missing
   /\ ProgressTracker.__init__ (git_Repo (Double.file_system [])) (py "/tmp/empty")
      = Raise NoSuchPathError)
  \/ (Double.file_system [] (py "/tmp/empty") = NotARepository
      /\ ProgressTracker.__init__ (git_Repo (Double.file_system [])) (py "/tmp/empty")
         = Raise InvalidGitRepositoryError).
Proof.
  apply (init_invalid_path (Double.file_system []) (py "/tmp/empty")).
  intros r Hr. vm_compute in Hr. discriminate Hr.
Defined.

(** C7 as stated fails: over the directory without a repository the
    constructor raises [InvalidGitRepositoryError], over a path that
    does not exist [NoSuchPathError]; these are two kinds of error, and
    neither is [RepositoryNotFoundError]. *)
Lemma init_not_repository_not_found :
  ProgressTracker.__init__ (git_Repo (Double.file_system [])) (py "/tmp/empty")
  = Raise InvalidGitRepositoryError
  /\ ProgressTracker.__init__ (git_Repo (Double.file_system [])) (py "/tmp/nowhere")
     = Raise NoSuchPathError
  /\ ProgressTracker.__init__ (git_Repo (Double.file_system [])) (py "/tmp/empty")
     <> Raise RepositoryNotFoundError.
Proof. split; [reflexivity|]. split; [reflexivity|]. by vm_compute. Qed.

(** ** POST /sync/ *)

Section SyncFacts.
Context {rt : PyRuntime} {vs : VectorStore}.
Import ProgressTracker Main.

Lemma add_entry_clock (entry : ProgressEntry) (w : World) :
  clock (snd (ProgressStorage.add_entry entry w)) = clock w.
Proof. reflexivity. Qed.

Lemma sync_loop_carries (tracker : t) (groups : list (pystr * list CodeChange)) :
  forall (entries : list ProgressEntry) (w : World),
    Forall (carries_extraction tracker (clock w)) entries ->
    Forall (carries_extraction tracker (clock w))
           (fst (sync_loop tracker groups entries w)).
Proof.
  induction groups as [|[category category_changes] groups IH];
    intros entries w Hentries; [done|].
  destruct category_changes as [|change rest]; [by apply IH|].
  cbn [sync_loop]. unfold bind at 1.
  destruct (create_progress_entry _ _ _ _ _ _ w) as [entry w1] eqn:Hcreate.
  unfold bind at 1.
  destruct (ProgressStorage.add_entry entry w1) as [u w2] eqn:Hadd.
  pose proof (f_equal (fun r => clock (snd r)) Hcreate) as Hclock1.
  pose proof (f_equal (fun r => pe_changes (fst r)) Hcreate) as Hchanges.
  pose proof (f_equal (fun r => clock (snd r)) Hadd) as Hclock2.
  cbn beta in Hclock1, Hchanges, Hclock2.
  rewrite create_progress_entry_clock in Hclock1.
  rewrite create_progress_entry_changes in Hchanges.
  rewrite add_entry_clock in Hclock2.
  cbn [fst snd] in Hclock1, Hchanges, Hclock2.
  assert (clock w2 = clock w) as Hclock by congruence.
  rewrite <- Hclock. apply IH. rewrite Hclock.
  apply Forall_app. split; [done|].
  apply Forall_singleton. by exists (ticks w).
Qed.

(** Every entry that [/sync/] creates carries the whole result of an
    extraction, not the changes of its own category alone. *)
Lemma sync_entries_carry (tracker : t) (w : World) :
  Forall (carries_extraction tracker (clock w))
         (snd (fst (sync_entries tracker w))).
Proof.
  unfold sync_entries, bind, now, ret.
  rewrite get_recent_changes_run.
  match goal with
  | |- context [sync_loop tracker ?g [] ?w'] =>
      pose proof (sync_loop_carries tracker g [] w' (Forall_nil_2 _)) as Hloop;
      destruct (sync_loop tracker g [] w') as [entries w'']
  end.
  exact Hloop.
Qed.

End SyncFacts.

(** Two commits of the day, one a bug fix and one a stylesheet change:
    [/sync/] creates one entry per category, and each carries both
    changes. *)
Example sync_entries_example :
  let tracker :=
    Double.tracker_of
      [(mk_datetime 2024 3 15 10 0 0 0,
        Double.commit_of "Fix crash on startup" ["src/api.py"]);
       (mk_datetime 2024 3 15 9 0 0 0,
        Double.commit_of "add feature" ["styles/main.css"])] in
  map (fun entry => (pe_category entry, map cc_category (pe_changes entry)))
      (snd (fst (Main.sync_entries (rt := Double.runtime) tracker
                   (Double.world_at Double.afternoon))))
  = [(py "bugfix", [py "bugfix"; py "ui"]); (py "ui", [py "bugfix"; py "ui"])].
Proof. reflexivity. Qed.

(** ** The start of the day *)

(** C1. On a call at 14:30:45.123456 the extractor is invoked with
    [since] at 00:00:45.123456 of that day: the seconds and microseconds
    of the call are kept, and [since] is not local midnight. *)
Theorem create_progress_entry_since_not_midnight :
  let w := Double.world_at Double.afternoon in
  since_log (snd (ProgressTracker.create_progress_entry (rt := Double.runtime)
                    (Double.tracker_of [])
                    (py "Release") (py "notes") (py "feature") None None w))
  = [mk_datetime 2024 3 15 0 0 45 123456]
  /\ start_of_day (clock w (ticks w)) = mk_datetime 2024 3 15 0 0 0 0.
Proof. split; reflexivity. Qed.

(** C10. With a commit made at 00:00:30, a call at 14:30:45.123456 of the
    same day returns an entry with no change, while the extraction from
    the start of that day has one. *)
Theorem create_progress_entry_misses_early_commit :
  let w := Double.world_at Double.afternoon in
  let tracker := Double.tracker_of [Double.early_commit] in
  pe_changes (fst (ProgressTracker.create_progress_entry (rt := Double.runtime)
                     tracker (py "Release") (py "notes") (py "feature") None None w))
  = []
  /\ length (ProgressTracker.extraction (rt := Double.runtime) tracker
               (start_of_day (clock w (ticks w)))) = 1.
Proof. split; reflexivity. Qed.

(** ** Splitting, replacing and stripping *)

Section TextFacts.

(** In a text that starts with a line feed, the second piece of
    [split] is the text up to the next line feed. *)
Lemma split_aux_line (line rest : pystr) :
  10%N ∉ line ->
  split_aux [10%N] 0 (line ++ 10%N :: rest) = (line, split rest [10%N]).
Proof.
  induction line as [|c line IH]; intros Hline.
  - reflexivity.
  - apply not_elem_of_cons in Hline as [Hc Hline].
    cbn [app split_aux startswith].
    replace (c =? 10)%N with false by (symmetry; apply N.eqb_neq; congruence).
    cbn [andb]. by rewrite (IH Hline).
Qed.

Lemma split_second_line (line rest : pystr) :
  10%N ∉ line ->
  split ([10%N] ++ line ++ [10%N] ++ rest) [10%N] !! 1%nat = Some line.
Proof.
  intros Hline. unfold split at 1.
  cbn [app split_aux startswith length Nat.sub N.eqb Pos.eqb andb].
  by rewrite (split_aux_line line rest Hline).
Qed.

(** While skipping, [replace] drops the code points of the occurrence. *)
Lemma replace_aux_skip (old new a s : pystr) :
  replace_aux old new (length a) (a ++ s) = replace_aux old new 0 s.
Proof.
  induction a as [|c a IH]; [done|].
  cbn [length app]. destruct s as [|d s]; cbn [replace_aux]; apply IH.
Qed.

Lemma replace_aux_match (c : N) (old new s : pystr) :
  replace_aux (c :: old) new 0 ((c :: old) ++ s) =
  new ++ replace_aux (c :: old) new 0 s.
Proof.
  pose proof (startswith_app (c :: old) s) as Hstart.
  cbn [app] in Hstart. cbn [app replace_aux]. rewrite Hstart.
  cbn [length Nat.sub]. rewrite Nat.sub_0_r.
  by rewrite replace_aux_skip.
Qed.

(** Code points other than the first of [old] start no occurrence. *)
Lemma replace_aux_other (c : N) (old new a s : pystr) :
  Forall (fun d => d <> c) a ->
  replace_aux (c :: old) new 0 (a ++ s) = a ++ replace_aux (c :: old) new 0 s.
Proof.
  induction 1 as [|d a Hd Ha IH]; [done|].
  cbn [app replace_aux startswith].
  replace (d =? c)%N with false by (symmetry; by apply N.eqb_neq).
  cbn [andb]. by rewrite IH.
Qed.

Lemma replace_aux_absent (old new s : pystr) :
  contains old s = false -> replace_aux old new 0 s = s.
Proof.
  induction s as [|c s IH]; [done|].
  rewrite contains_unfold. intros Hc.
  apply orb_false_iff in Hc as [Hstart Hrest].
  cbn [replace_aux]. by rewrite Hstart, (IH Hrest).
Qed.

Lemma lstrip_blanks (a s : pystr) :
  Forall (fun c => isspace c = true) a -> lstrip (a ++ s) = lstrip s.
Proof.
  induction 1 as [|c a Hc Ha IH]; [done|].
  cbn [app lstrip]. by rewrite Hc.
Qed.

Lemma strip_blanks (a s : pystr) :
  Forall (fun c => isspace c = true) a -> strip (a ++ s) = strip s.
Proof. intros Ha. unfold strip. by rewrite lstrip_blanks. Qed.

Lemma first_line_no_feed (s : pystr) : 10%N ∉ first_line s.
Proof.
  induction s as [|c s IH]; cbn [first_line]; [apply not_elem_of_nil|].
  destruct (c =? 10)%N eqn:Hc; [apply not_elem_of_nil|].
  apply N.eqb_neq in Hc. apply not_elem_of_cons. split; [congruence | done].
Qed.

Lemma first_line_whole (s : pystr) : 10%N ∉ s -> first_line s = s.
Proof.
  induction s as [|c s IH]; [done|]. intros Hs.
  apply not_elem_of_cons in Hs as [Hc Hs]. cbn [first_line].
  replace (c =? 10)%N with false by (symmetry; apply N.eqb_neq; congruence).
  by rewrite (IH Hs).
Qed.

Lemma first_line_cut (s : pystr) :
  10%N ∈ s -> exists tail, s = first_line s ++ 10%N :: tail.
Proof.
  induction s as [|c s IH]; intros Hs; [by apply elem_of_nil in Hs|].
  cbn [first_line]. destruct (c =? 10)%N eqn:Hc.
  - apply N.eqb_eq in Hc. subst c. by exists s.
  - apply N.eqb_neq in Hc. apply elem_of_cons in Hs as [Hs|Hs]; [congruence|].
    destruct (IH Hs) as [tail Htail]. exists tail. cbn [app]. congruence.
Qed.

(** [replace] by the empty string and [strip] only remove code points. *)
Lemma replace_aux_subset (old : pystr) (x : N) (s : pystr) :
  forall k, x ∈ replace_aux old [] k s -> x ∈ s.
Proof.
  induction s as [|c s IH]; intros k Hx; [done|].
  cbn [replace_aux] in Hx. destruct k as [|k].
  - destruct (startswith (c :: s) old).
    + right. by apply (IH _ Hx).
    + apply elem_of_cons in Hx as [->|Hx]; [left | right; by apply (IH _ Hx)].
  - right. by apply (IH _ Hx).
Qed.

Lemma replace_aux_length (old s : pystr) :
  forall k, length (replace_aux old [] k s) <= length s.
Proof.
  induction s as [|c s IH]; intros k; [done|].
  cbn [replace_aux]. destruct k as [|k].
  - destruct (startswith (c :: s) old); cbn [app length].
    + specialize (IH (length old - 1)). lia.
    + specialize (IH 0). lia.
  - cbn [length]. specialize (IH k). lia.
Qed.

Lemma replace_aux_shorter (old s : pystr) :
  old <> [] ->
  contains old s = true -> length (replace_aux old [] 0 s) < length s.
Proof.
  intros Hold. induction s as [|c s IH]; rewrite contains_unfold.
  - by destruct old.
  - cbn [replace_aux]. destruct (startswith (c :: s) old); cbn [orb app length].
    + intros _. pose proof (replace_aux_length old s (length old - 1)). lia.
    + intros Hc. specialize (IH Hc). lia.
Qed.

Lemma lstrip_subset (x : N) (s : pystr) : x ∈ lstrip s -> x ∈ s.
Proof.
  induction s as [|c s IH]; [done|]. cbn [lstrip].
  destruct (isspace c); [|done]. intros Hx. right. by apply IH.
Qed.

Lemma lstrip_length (s : pystr) : length (lstrip s) <= length s.
Proof.
  induction s as [|c s IH]; [done|]. cbn [lstrip].
  destruct (isspace c); cbn [length]; lia.
Qed.

Lemma strip_subset (x : N) (s : pystr) : x ∈ strip s -> x ∈ s.
Proof.
  unfold strip, rstrip. rewrite !list_elem_of_In, <- in_rev, <- !list_elem_of_In.
  intros Hx. apply lstrip_subset in Hx.
  rewrite list_elem_of_In, <- in_rev, <- list_elem_of_In in Hx.
  by apply lstrip_subset.
Qed.

Lemma strip_length (s : pystr) : length (strip s) <= length s.
Proof.
  unfold strip, rstrip. rewrite length_rev.
  pose proof (lstrip_length (rev (lstrip s))) as H1.
  rewrite length_rev in H1. pose proof (lstrip_length s). lia.
Qed.

End TextFacts.

(** ** The storage facade *)

Section Results.

Lemma rmap_Forall2 {A B} (f : A -> result B) (l : list A) (bs : list B) :
  rmap f l = Ok bs -> Forall2 (fun a b => f a = Ok b) l bs.
Proof.
  revert bs. induction l as [|a l IH]; intros bs Hbs; cbn [rmap] in Hbs.
  - injection Hbs as <-. constructor.
  - destruct (f a) as [b|] eqn:Hb; cbn [rbind] in Hbs; [|done].
    destruct (rmap f l) as [bs'|]; cbn [rbind] in Hbs; [|done].
    injection Hbs as <-. constructor; [done | by apply IH].
Qed.

Lemma rmap_Forall {A B} (f : A -> result B) (P : B -> Prop) (l : list A) (bs : list B) :
  (forall a b, a ∈ l -> f a = Ok b -> P b) ->
  rmap f l = Ok bs -> Forall P bs.
Proof.
  intros HP Hbs. apply rmap_Forall2 in Hbs.
  induction Hbs as [|a b l bs Hab Hbs IH]; constructor.
  - apply (HP a); [left | done].
  - apply IH. intros a' b' Ha'. apply HP. by right.
Qed.

End Results.

Ltac invert_rbind H :=
  repeat match type of H with
         | rbind ?m _ = Ok _ =>
             let E := fresh "E" in
             destruct m eqn:E; cbn [rbind] in H; [|discriminate H]
         end.

Section Storage.
Context {rt : PyRuntime} {vs : VectorStore}.
Import ProgressStorage.

Lemma entry_of_document_fields (doc : Document) (entry : ProgressEntry) :
  entry_of_document doc = Ok entry ->
  pe_changes entry = []
  /\ metadata doc !! py "category" = Some (pe_category entry)
  /\ title_of_page_content (page_content doc) = Ok (pe_title entry).
Proof.
  unfold entry_of_document. intros Hdoc.
  invert_rbind Hdoc. injection Hdoc as <-.
  cbn [pe_changes pe_category pe_title].
  split; [done|]. split; [|done].
  unfold getitem in E3. by destruct (metadata doc !! py "category"); simplify_eq.
Qed.

Lemma search_run (query : SearchQuery) (limit : Z) (w : World)
    (entries : list ProgressEntry) :
  fst (search query limit w) = Ok entries ->
  exists results,
    search_results (collection w) query limit = Ok results
    /\ Forall2 (fun r entry => entry_of_document (fst r) = Ok entry) results entries.
Proof.
  unfold search. cbn [fst]. intros Hs.
  destruct (search_results _ _ _) as [results|]; cbn [rbind] in Hs; [|done].
  exists results. split; [done|]. by apply rmap_Forall2 in Hs.
Qed.

(** C8. Every entry that [search] reconstructs has an empty list of
    changes, whatever the query and the stored collection. *)
Theorem search_changes_empty (query : SearchQuery) (limit : Z) (w : World)
    (entries : list ProgressEntry) :
  fst (search query limit w) = Ok entries ->
  Forall (fun entry => pe_changes entry = []) entries.
Proof.
  intros Hs. apply search_run in Hs as (results & _ & Hentries).
  induction Hentries as [|r entry results entries Hr _ IH]; constructor; [|done].
  by apply entry_of_document_fields in Hr as [? _].
Qed.

End Storage.

Section TitleRecovery.
Context {rt : PyRuntime} {vs : VectorStore}.
Import ProgressStorage.

(** The stored text opens with a line feed and the title line. *)
Lemma entry_text_head (entry : ProgressEntry) :
  exists rest,
    entry_text entry =
    [10%N] ++ (indent ++ py "Title: " ++ pe_title entry) ++ [10%N] ++ rest.
Proof.
  eexists. unfold entry_text, nl. rewrite <- !app_assoc. reflexivity.
Qed.

Lemma indent_blank : Forall (fun c => isspace c = true) indent.
Proof. repeat constructor. Qed.

Lemma indent_no_T : Forall (fun d => d <> 84%N) indent.
Proof. repeat constructor; discriminate. Qed.

Lemma label_line_no_feed (title : pystr) :
  10%N ∉ title -> 10%N ∉ indent ++ py "Title: " ++ title.
Proof.
  intros Htitle. rewrite !elem_of_app. intros [Hin|[Hin|Hin]]; [| |done].
  - refine (bool_decide_unpack (10%N ∉ indent) _ Hin). by vm_compute.
  - refine (bool_decide_unpack (10%N ∉ py "Title: ") _ Hin). by vm_compute.
Qed.

(** What the parse of [search] makes of a title line. *)
Lemma label_line_parse (title : pystr) :
  contains (py "Title: ") title = false ->
  strip title = title ->
  strip (replace (indent ++ py "Title: " ++ title) (py "Title: ") []) = title.
Proof.
  change (py "Title: ") with (84%N :: py "itle: ").
  intros Habsent Hstrip. unfold replace.
  rewrite (replace_aux_other _ _ _ _ _ indent_no_T), replace_aux_match.
  rewrite (replace_aux_absent _ _ _ Habsent), app_nil_l.
  by rewrite (strip_blanks _ _ indent_blank).
Qed.

Lemma title_of_entry_text (entry : ProgressEntry) :
  10%N ∉ pe_title entry ->
  contains (py "Title: ") (pe_title entry) = false ->
  strip (pe_title entry) = pe_title entry ->
  title_of_page_content (entry_text entry) = Ok (pe_title entry).
Proof.
  intros Hfeed Habsent Hstrip.
  destruct (entry_text_head entry) as [rest ->].
  unfold title_of_page_content, nl.
  rewrite (split_second_line _ _ (label_line_no_feed _ Hfeed)).
  by rewrite (label_line_parse _ Habsent Hstrip).
Qed.

(** C2, amended. For a title with no line feed in it, without the text
    "Title: " in it, and with no blank at either end, the document that
    [add_entry] stores gives the title back: the parse of [search]
    returns it, and so does every entry reconstructed from that
    document. *)
Theorem title_round_trip (entry : ProgressEntry) (w : World) :
  10%N ∉ pe_title entry ->
  contains (py "Title: ") (pe_title entry) = false ->
  strip (pe_title entry) = pe_title entry ->
  exists doc,
    collection (snd (add_entry entry w)) = collection w ++ [doc]
    /\ title_of_page_content (page_content doc) = Ok (pe_title entry)
    /\ forall entry',
        entry_of_document doc = Ok entry' -> pe_title entry' = pe_title entry.
Proof.
  intros Hfeed Habsent Hstrip.
  exists (mk_Document (entry_text entry) (entry_metadata entry)).
  pose proof (title_of_entry_text entry Hfeed Habsent Hstrip) as Htitle.
  split; [done|]. split; [done|].
  intros entry' Hdoc.
  apply entry_of_document_fields in Hdoc as (_ & _ & Hparse).
  cbn [page_content] in Hparse. congruence.
Qed.

(** With a runtime that reads back the dates and the tag lists it
    prints, the stored document is reconstructed without error. *)
Lemma entry_of_document_stored (entry : ProgressEntry) (title : pystr) :
  fromisoformat (isoformat (pe_date entry)) = Some (pe_date entry) ->
  json_loads (json_dumps (pe_tags entry)) = Some (pe_tags entry) ->
  title_of_page_content (entry_text entry) = Ok title ->
  entry_of_document (mk_Document (entry_text entry) (entry_metadata entry)) =
  Ok {| pe_id := pe_id entry; pe_date := pe_date entry; pe_title := title;
        pe_description := entry_text entry; pe_changes := [];
        pe_category := pe_category entry; pe_tags := pe_tags entry;
        pe_impact_level := pe_impact_level entry |}.
Proof.
  intros Hdate Htags Htitle.
  unfold entry_of_document, getitem, entry_metadata.
  cbn [metadata page_content].
  rewrite Htitle.
  repeat (rewrite lookup_insert_eq || (rewrite lookup_insert_ne by (by vm_compute))).
  cbn [rbind]. rewrite Hdate. cbn [from_option rbind].
  repeat (rewrite lookup_insert_eq || (rewrite lookup_insert_ne by (by vm_compute))).
  cbn [rbind]. rewrite Htags. cbn [from_option rbind].
  repeat (rewrite lookup_insert_eq || (rewrite lookup_insert_ne by (by vm_compute))).
  done.
Qed.

(** What [search] makes of the title of any stored entry: the first line
    of the title, without any "Title: " in it, stripped. *)
Lemma title_of_entry_text_any (entry : ProgressEntry) :
  title_of_page_content (entry_text entry) =
  Ok (strip (replace (first_line (pe_title entry)) (py "Title: ") [])).
Proof.
  assert (exists rest,
             entry_text entry =
             [10%N] ++ (indent ++ py "Title: " ++ first_line (pe_title entry))
             ++ [10%N] ++ rest) as [rest ->].
  { destruct (entry_text_head entry) as [rest ->].
    destruct (decide (10%N ∈ pe_title entry)) as [Hin|Hout].
    - destruct (first_line_cut _ Hin) as [tail Hcut].
      remember (first_line (pe_title entry)) as line eqn:Hline.
      exists (tail ++ [10%N] ++ rest). rewrite Hcut.
      by rewrite <- !app_assoc.
    - exists rest. by rewrite (first_line_whole _ Hout). }
  unfold title_of_page_content, nl.
  rewrite (split_second_line _ _ (label_line_no_feed _ (first_line_no_feed _))).
  change (py "Title: ") with (84%N :: py "itle: "). unfold replace.
  rewrite (replace_aux_other _ _ _ _ _ indent_no_T), replace_aux_match, app_nil_l.
  by rewrite (strip_blanks _ _ indent_blank).
Qed.

(** The three conditions on the title are exactly those under which the
    title comes back. *)
Lemma title_recovered_iff (entry : ProgressEntry) :
  title_of_page_content (entry_text entry) = Ok (pe_title entry) <->
  (10%N ∉ pe_title entry)
  /\ contains (py "Title: ") (pe_title entry) = false
  /\ strip (pe_title entry) = pe_title entry.
Proof.
  split; [|intros (? & ? & ?); by apply title_of_entry_text].
  rewrite title_of_entry_text_any. intros [= Htitle].
  assert (10%N ∉ pe_title entry) as Hfeed.
  { intros Hin. rewrite <- Htitle in Hin.
    apply strip_subset, replace_aux_subset in Hin.
    by apply first_line_no_feed in Hin. }
  rewrite (first_line_whole _ Hfeed) in Htitle.
  assert (contains (py "Title: ") (pe_title entry) = false) as Habsent.
  { destruct (contains _ _) eqn:Hc; [|done]. exfalso.
    apply replace_aux_shorter in Hc; [|done].
    pose proof (strip_length (replace (pe_title entry) (py "Title: ") [])) as Hlen.
    rewrite Htitle in Hlen. unfold replace in Hlen. lia. }
  split; [done|]. split; [done|].
  unfold replace in Htitle. by rewrite (replace_aux_absent _ _ _ Habsent) in Htitle.
Qed.

End TitleRecovery.

(** C2 on a stored entry titled [Release notes]. *)
Lemma title_round_trip_witness :
  exists doc,
    collection (snd (ProgressStorage.add_entry (rt := Double.runtime)
                       (Double.entry_titled "Release notes" "feature")
                       (Double.world_at Double.afternoon))) = [doc]
    /\ ProgressStorage.title_of_page_content (page_content doc) = Ok (py "Release notes")
    /\ forall entry',
        ProgressStorage.entry_of_document (rt := Double.runtime) doc = Ok entry' ->
        pe_title entry' = py "Release notes".
Proof.
  apply (title_round_trip (rt := Double.runtime)
           (Double.entry_titled "Release notes" "feature")
           (Double.world_at Double.afternoon)).
  - apply (bool_decide_unpack (10%N ∉ py "Release notes")). by vm_compute.
  - by vm_compute.
  - by vm_compute.
Defined.

(** C2 as stated fails: an entry titled [Title: notes] is stored, and the
    search that finds it returns it with the title [notes]. *)
Lemma title_round_trip_counterexample :
  let entry := Double.entry_titled "Title: notes" "feature" in
  exists entry',
    fst (ProgressStorage.search (rt := Double.runtime) (vs := Double.store)
           (Double.query_of "notes" None) 5 (Double.world_with [entry]))
    = Ok [entry']
    /\ pe_title entry' = py "notes"
    /\ pe_title entry' <> pe_title entry.
Proof.
  eexists. split; [vm_compute; reflexivity|].
  split; [reflexivity | by vm_compute].
Qed.

(** The other two ways in which a title is lost: a blank at an end is
    stripped, and only the first line is read. *)
Example title_lost_examples :
  map (fun title =>
         ProgressStorage.title_of_page_content
           (ProgressStorage.entry_text (rt := Double.runtime)
              (Double.entry_with_title title "feature")))
      [py " Release notes"; py "Release" ++ [10%N] ++ py "notes"]
  = [Ok (py "Release notes"); Ok (py "Release")].
Proof. reflexivity. Qed.

(** ** The filter law *)

Section FilterLaw.
Context {rt : PyRuntime}.
Import ProgressStorage.

(** With categories given, the filter has their [$in] clause under
    ["category"]. *)
Lemma filter_of_query_categories (query : SearchQuery) (c : pystr) (cs : list pystr) :
  sq_categories query = Some (c :: cs) ->
  exists f, filter_of_query query = Some f
            /\ f !! py "category" = Some {[ py "$in" := c :: cs ]}.
Proof.
  intros Hcats. unfold filter_of_query. rewrite Hcats. cbn [truthy in_clause default].
  destruct (truthy (sq_tags query)).
  - eexists. rewrite bool_decide_eq_false_2 by apply insert_non_empty.
    split; [done|].
    rewrite lookup_insert_ne by (by vm_compute). apply lookup_insert_eq.
  - eexists. rewrite bool_decide_eq_false_2 by apply insert_non_empty.
    split; [done|]. apply lookup_insert_eq.
Qed.

Lemma filter_of_query_tags (query : SearchQuery) (t : pystr) (ts : list pystr) :
  sq_tags query = Some (t :: ts) ->
  exists f, filter_of_query query = Some f
            /\ f !! py "tags" = Some {[ py "$in" := t :: ts ]}.
Proof.
  intros Htags. unfold filter_of_query. rewrite Htags. cbn [truthy in_clause default].
  eexists. rewrite bool_decide_eq_false_2 by apply insert_non_empty.
  split; [done|]. apply lookup_insert_eq.
Qed.

(** Without categories and without tags, no filter is passed at all. *)
Lemma filter_of_query_absent (query : SearchQuery) :
  truthy (sq_categories query) = false -> truthy (sq_tags query) = false ->
  filter_of_query query = None.
Proof.
  intros Hc Ht. unfold filter_of_query. by rewrite Hc, Ht.
Qed.

(** The conditions of a filter: one for each value listed under an
    inner key. *)
Lemma build_conditions_in (f : Filter) (key inner : pystr)
    (clause : gmap pystr (list pystr)) (vals : list pystr) (v : pystr) :
  f !! key = Some clause -> clause !! inner = Some vals -> In v vals ->
  In (Qdrant.mk_FieldCondition [key; inner] v) (Qdrant.build_conditions f).
Proof.
  intros Hf Hclause Hv. unfold Qdrant.build_conditions.
  apply in_flat_map. exists (key, clause).
  split; [by apply list_elem_of_In, elem_of_map_to_list|].
  apply in_flat_map. exists (inner, vals).
  split; [by apply list_elem_of_In, elem_of_map_to_list|].
  cbn [fst snd]. by apply in_map.
Qed.

(** No document passes a filter that lists a value under an inner key. *)
Lemma passes_nested (f : Filter) (key inner : pystr)
    (clause : gmap pystr (list pystr)) (v : pystr) (vs : list pystr) (doc : Document) :
  f !! key = Some clause -> clause !! inner = Some (v :: vs) ->
  Qdrant.passes (Some f) doc = false.
Proof.
  intros Hf Hclause. cbn [Qdrant.passes].
  destruct (forallb _ _) eqn:Hall; [|done].
  rewrite forallb_forall in Hall.
  specialize (Hall _ (build_conditions_in f key inner clause (v :: vs) v
                        Hf Hclause (or_introl eq_refl))).
  unfold Qdrant.condition_holds in Hall. cbn in Hall. done.
Qed.

Lemma filter_none {A} (p : A -> bool) (l : list A) :
  (forall x, p x = false) -> List.filter p l = [].
Proof.
  intros Hp. induction l as [|x l IH]; [done|].
  cbn [List.filter]. by rewrite Hp.
Qed.

Lemma filter_all {A} (l : list A) : List.filter (fun _ => true) l = l.
Proof. induction l as [|x l IH]; [done|]. cbn [List.filter]. by rewrite IH. Qed.

(** With categories or tags given, the store has nothing to return. *)
Lemma search_results_filtered (score : pystr -> Document -> Z) (docs : list Document)
    (query : SearchQuery) (limit : Z) :
  truthy (sq_categories query) = true \/ truthy (sq_tags query) = true ->
  search_results (vs := Qdrant.store score) docs query limit = Ok [].
Proof.
  intros Hgiven.
  assert (exists f key v vs,
             filter_of_query query = Some f
             /\ f !! key = Some {[ py "$in" := v :: vs ]}) as (f & key & v & vs & Hf & Hkey).
  { destruct Hgiven as [Hc|Ht].
    - destruct (sq_categories query) as [[|c cs]|] eqn:Hcats; try done.
      destruct (filter_of_query_categories query c cs Hcats) as (f & ? & ?).
      by exists f, (py "category"), c, cs.
    - destruct (sq_tags query) as [[|t ts]|] eqn:Htags; try done.
      destruct (filter_of_query_tags query t ts Htags) as (f & ? & ?).
      by exists f, (py "tags"), t, ts. }
  unfold search_results. rewrite Hf.
  cbn [similarity_search_with_score Qdrant.store].
  rewrite (filter_none (Qdrant.passes (Some f)) docs).
  - cbn [map]. by destruct (Z.to_nat limit).
  - intros doc. apply (passes_nested f key (py "$in") _ v vs doc Hkey).
    apply lookup_singleton_eq.
Qed.

(** Without a filter every stored document is a candidate: the store
    returns the [limit] most similar of them all. *)
Lemma search_results_unfiltered (score : pystr -> Document -> Z) (docs : list Document)
    (query : SearchQuery) (limit : Z) :
  filter_of_query query = None ->
  search_results (vs := Qdrant.store score) docs query limit =
  Ok (take (Z.to_nat limit)
        (merge_sort Qdrant.more_similar
           (map (fun doc => (doc, score (sq_query query) doc)) docs))).
Proof.
  intros Hnone. unfold search_results. rewrite Hnone.
  cbn [similarity_search_with_score Qdrant.store Qdrant.passes].
  by rewrite filter_all.
Qed.


End FilterLaw.


(** C8 on the same collection, searched without a filter: both entries
    come back, each stored with a change, each returned with none. *)
Lemma search_changes_empty_witness :
  exists entries,
    fst (ProgressStorage.search (rt := Double.runtime) (vs := Double.store)
           (Double.query_of "crash" None) 5
           (Double.world_with [Double.entry_titled "Crash fixed" "bugfix";
                               Double.entry_titled "Dark mode" "feature"]))
    = Ok entries
    /\ length entries = 2%nat
    /\ Forall (fun entry => pe_changes entry = []) entries.
Proof.
  eexists. split; [vm_compute; reflexivity|]. split; [reflexivity|].
  apply (search_changes_empty (rt := Double.runtime) (vs := Double.store)
           (Double.query_of "crash" None) 5
           (Double.world_with [Double.entry_titled "Crash fixed" "bugfix";
                               Double.entry_titled "Dark mode" "feature"])).
  vm_compute; reflexivity.
Defined.

(** * Further properties of the code *)

(** ** The change extractor *)

Section Extractor.
Context {rt : PyRuntime}.
Import ProgressTracker.

Lemma changes_loop_from (changes : list CodeChange) (commits : list Commit) :
  changes_loop changes commits = changes ++ changes_from (length changes) commits.
Proof.
  revert changes. induction commits as [|commit commits IH]; intros changes.
  - cbn [changes_loop changes_from]. by rewrite app_nil_r.
  - cbn [changes_loop changes_from]. rewrite IH, length_app, <- app_assoc.
    cbn [length app]. by rewrite Nat.add_1_r.
Qed.

Lemma changes_from_imap (n : nat) (commits : list Commit) :
  changes_from n commits = imap (fun i => change_of_commit (n + i)) commits.
Proof.
  revert n. induction commits as [|commit commits IH]; intros n; [done|].
  cbn [changes_from]. rewrite imap_cons, Nat.add_0_r, IH. f_equal.
  apply imap_ext. intros i c _. cbn. f_equal. lia.
Qed.

Lemma changes_from_ids (n : nat) (commits : list Commit) :
  map cc_id (changes_from n commits) =
  map (fun i => str_of_N (N.of_nat i)) (seq n (length commits)).
Proof.
  revert n. induction commits as [|commit commits IH]; intros n; [done|].
  cbn [changes_from map length seq cc_id change_of_commit]. by rewrite IH.
Qed.

Lemma py_inj (s1 s2 : string) : py s1 = py s2 -> s1 = s2.
Proof.
  unfold py. revert s2. induction s1 as [|a s1 IH]; intros [|b s2] Heq;
    cbn [list_ascii_of_string map] in Heq; try done.
  injection Heq as Hab Hrest.
  apply (f_equal ascii_of_N) in Hab. rewrite !ascii_N_embedding in Hab.
  f_equal; [done | by apply IH].
Qed.

Lemma str_of_N_inj (n m : N) : str_of_N n = str_of_N m -> n = m.
Proof. unfold str_of_N. intros Heq. apply py_inj in Heq. by apply (inj pretty). Qed.

Lemma NoDup_map_inj {A B} (f : A -> B) (l : list A) :
  (forall x y, f x = f y -> x = y) -> NoDup l -> NoDup (map f l).
Proof.
  intros Hf. induction 1 as [|x l Hx Hl IH]; cbn [map]; constructor; [|done].
  rewrite list_elem_of_In, in_map_iff. intros (y & Hy & Hin).
  apply Hf in Hy. subst y. by apply Hx, list_elem_of_In.
Qed.

(** X1. [get_recent_changes] yields one change per commit of the walk, in
    the order of the walk, the change at position [i] being built from
    the commit at position [i] with the identifier [str(i)]. *)
Theorem get_recent_changes_positions (self : t) (since : datetime) (w : World) :
  fst (get_recent_changes self since w) =
  imap change_of_commit (iter_commits (repo self) since).
Proof.
  rewrite get_recent_changes_run. cbn [fst]. unfold extraction.
  rewrite changes_loop_from, app_nil_l. cbn [length]. by rewrite changes_from_imap.
Qed.

(** X2. The identifiers of the changes of one extraction are pairwise
    distinct. *)
Theorem get_recent_changes_ids_distinct (self : t) (since : datetime) (w : World) :
  NoDup (map cc_id (fst (get_recent_changes self since w))).
Proof.
  rewrite get_recent_changes_run. cbn [fst]. unfold extraction.
  rewrite changes_loop_from, app_nil_l, changes_from_ids.
  apply NoDup_map_inj; [|apply NoDup_seq].
  intros i j Hij. apply str_of_N_inj in Hij. lia.
Qed.

Lemma categorize_label (commit : Commit) :
  _categorize_commit commit ∈ get_categories.
Proof.
  unfold _categorize_commit, get_categories.
  repeat match goal with
         | |- context [if ?b then _ else _] => destruct b
         end; set_solver.
Qed.

Lemma changes_from_categories (n : nat) (commits : list Commit) :
  Forall (fun change => cc_category change ∈ get_categories) (changes_from n commits).
Proof.
  revert n. induction commits as [|commit commits IH]; intros n; constructor; [|done].
  apply categorize_label.
Qed.

(** X3. Every change that [get_recent_changes] yields has a category of
    the fixed enumeration. *)
Theorem get_recent_changes_categories (self : t) (since : datetime) (w : World) :
  Forall (fun change => cc_category change ∈ get_categories)
         (fst (get_recent_changes self since w)).
Proof.
  rewrite get_recent_changes_run. cbn [fst]. unfold extraction.
  rewrite changes_loop_from, app_nil_l. apply changes_from_categories.
Qed.

End Extractor.

(** ** The decision table of the categorizer *)

Section DecisionTable.
Context {rt : PyRuntime}.
Import ProgressTracker.

Lemma label_neq (a b : string) : a <> b -> py a <> py b.
Proof. intros Hab Heq. by apply Hab, py_inj. Qed.

(** X4. The category is testing exactly when some file path ends in a
    test-file suffix. *)
Theorem categorize_testing_iff (commit : Commit) :
  _categorize_commit commit = py "testing" <->
  exists f suffix p,
    f ∈ diff_a_paths commit /\ suffix ∈ test_suffixes /\ f = p ++ suffix.
Proof.
  rewrite <- existsb_endswith_any. unfold _categorize_commit.
  destruct (existsb (fun f => endswith_any f test_suffixes) _); [done|].
  split; [|done].
  repeat match goal with
         | |- context [if ?b then _ else _] => destruct b
         end; intros Heq; by apply label_neq in Heq.
Qed.

(** X5. The category is ui exactly when no file path ends in a test-file
    suffix and some file path ends in [.css], [.scss] or [.html]. *)
Theorem categorize_ui_iff (commit : Commit) :
  _categorize_commit commit = py "ui" <->
  ~ (exists f suffix p,
        f ∈ diff_a_paths commit /\ suffix ∈ test_suffixes /\ f = p ++ suffix)
  /\ exists f suffix p,
      f ∈ diff_a_paths commit /\ suffix ∈ ui_suffixes /\ f = p ++ suffix.
Proof.
  rewrite <- !existsb_endswith_any. unfold _categorize_commit.
  destruct (existsb (fun f => endswith_any f test_suffixes) _).
  { split; [intros Heq; by apply label_neq in Heq | by intros [[] _]]. }
  destruct (existsb (fun f => endswith_any f ui_suffixes) _).
  { split; [by split | done]. }
  split; [|by intros [_ ?]].
  repeat match goal with
         | |- context [if ?b then _ else _] => destruct b
         end; intros Heq; by apply label_neq in Heq.
Qed.

(** X6. With no file path ending in a test-file or UI suffix, the lowered
    message decides: bugfix when it contains "fix" or "bug"; otherwise
    feature when it contains "feature"; otherwise refactor when it
    contains "refactor"; otherwise other. *)
Theorem categorize_by_message (commit : Commit) :
  (forall f suffix p,
      f ∈ diff_a_paths commit -> suffix ∈ test_suffixes ++ ui_suffixes ->
      f <> p ++ suffix) ->
  let msg := lower (message commit) in
  let has word := contains (py word) msg = true in
  (_categorize_commit commit = py "bugfix" <-> has "fix" \/ has "bug")
  /\ (_categorize_commit commit = py "feature" <->
      ~ (has "fix" \/ has "bug") /\ has "feature")
  /\ (_categorize_commit commit = py "refactor" <->
      ~ (has "fix" \/ has "bug") /\ ~ has "feature" /\ has "refactor")
  /\ (_categorize_commit commit = py "other" <->
      ~ (has "fix" \/ has "bug") /\ ~ has "feature" /\ ~ has "refactor").
Proof.
  intros Hfiles msg has. unfold _categorize_commit.
  destruct (existsb (fun f => endswith_any f test_suffixes) _) eqn:Htest.
  { apply existsb_endswith_any in Htest as (f & suffix & p & Hf & Hs & Hp).
    exfalso. apply (Hfiles f suffix p Hf); [|done]. apply elem_of_app. by left. }
  destruct (existsb (fun f => endswith_any f ui_suffixes) _) eqn:Hui.
  { apply existsb_endswith_any in Hui as (f & suffix & p & Hf & Hs & Hp).
    exfalso. apply (Hfiles f suffix p Hf); [|done]. apply elem_of_app. by right. }
  fold msg. unfold has.
  destruct (contains (py "fix") msg), (contains (py "bug") msg),
    (contains (py "feature") msg), (contains (py "refactor") msg);
    cbn [orb];
    repeat split;
    try (intros Heq; by apply label_neq in Heq);
    try done; try tauto; try (intros; intuition congruence).
Qed.

End DecisionTable.

(** X6 on a commit that touches [src/flags.py] with the message
    [Refactor the FEATURE flags]: the label is feature. *)
Lemma categorize_by_message_witness :
  ProgressTracker._categorize_commit (rt := Double.runtime)
    (Double.commit_of "Refactor the FEATURE flags" ["src/flags.py"]) = py "feature".
Proof.
  pose proof (categorize_by_message (rt := Double.runtime)
                (Double.commit_of "Refactor the FEATURE flags" ["src/flags.py"]))
    as Htable.
  cbv zeta in Htable.
  destruct Htable as (_ & Hfeature & _).
  - intros f suffix p Hf Hs ->.
    apply list_elem_of_singleton in Hf.
    apply (f_equal (fun s => endswith s suffix)) in Hf.
    rewrite endswith_app in Hf.
    repeat (apply elem_of_cons in Hs as [->|Hs]; [vm_compute in Hf; discriminate|]).
    by apply elem_of_nil in Hs.
  - apply Hfeature. split; [|by vm_compute].
    intros [Hfix|Hbug]; [vm_compute in Hfix | vm_compute in Hbug]; discriminate.
Defined.

(** ** What is stored and what comes back *)

Section StoredDocument.
Context {rt : PyRuntime} {vs : VectorStore}.
Import ProgressStorage.

(** X7. [add_entry] appends one document to the collection and leaves
    the earlier ones, the clock and the log alone. The metadata of the
    document has exactly the keys id, date, category, tags and
    impact_level, with the id, the category and the impact level of the
    entry as they are. *)
Theorem add_entry_stores (entry : ProgressEntry) (w : World) :
  exists doc,
    collection (snd (add_entry entry w)) = collection w ++ [doc]
    /\ dom (metadata doc) = list_to_set metadata_keys
    /\ metadata doc !! py "id" = Some (pe_id entry)
    /\ metadata doc !! py "category" = Some (pe_category entry)
    /\ metadata doc !! py "impact_level" = Some (pe_impact_level entry)
    /\ ticks (snd (add_entry entry w)) = ticks w
    /\ since_log (snd (add_entry entry w)) = since_log w.
Proof.
  exists (document_of entry). split; [done|].
  unfold document_of, entry_metadata. cbn [metadata].
  split.
  { rewrite !dom_insert_L, dom_empty_L. unfold metadata_keys.
    cbn [list_to_set]. set_solver. }
  split; [apply lookup_insert_eq|].
  split.
  { repeat (rewrite lookup_insert_ne by (by vm_compute)). apply lookup_insert_eq. }
  split.
  { repeat (rewrite lookup_insert_ne by (by vm_compute)). apply lookup_insert_eq. }
  by split.
Qed.

(** X8. With a runtime that reads back the date and the tag list it
    printed, the document stored for an entry is reconstructed without
    error: id, date, category, tags and impact level are those of the
    entry; the title is its first line without any "Title: " and
    stripped; the description is the whole stored text; the changes are
    gone. *)
Theorem stored_entry_reconstructed (entry : ProgressEntry) :
  fromisoformat (isoformat (pe_date entry)) = Some (pe_date entry) ->
  json_loads (json_dumps (pe_tags entry)) = Some (pe_tags entry) ->
  entry_of_document (document_of entry) =
  Ok {| pe_id := pe_id entry;
        pe_date := pe_date entry;
        pe_title := recovered_title (pe_title entry);
        pe_description := entry_text entry;
        pe_changes := [];
        pe_category := pe_category entry;
        pe_tags := pe_tags entry;
        pe_impact_level := pe_impact_level entry |}.
Proof.
  intros Hdate Htags.
  apply (entry_of_document_stored entry _ Hdate Htags).
  apply title_of_entry_text_any.
Qed.

Lemma entry_text_description (entry : ProgressEntry) :
  exists post,
    entry_text entry = text_before_description entry ++ pe_description entry ++ post.
Proof.
  eexists. unfold entry_text, text_before_description, nl.
  rewrite <- !app_assoc. reflexivity.
Qed.

(** X9. The description of an entry does not come back: an entry
    reconstructed from the stored document has the whole stored text as
    its description, which contains the original description and is
    longer than it. *)
Theorem description_not_recovered (entry entry' : ProgressEntry) :
  entry_of_document (document_of entry) = Ok entry' ->
  pe_description entry' = entry_text entry
  /\ (exists pre post, pe_description entry' = pre ++ pe_description entry ++ post)
  /\ length (pe_description entry) < length (pe_description entry').
Proof.
  unfold entry_of_document. intros Hdoc.
  invert_rbind Hdoc. injection Hdoc as <-.
  cbn [pe_description document_of page_content].
  split; [done|].
  destruct (entry_text_description entry) as [post Htext].
  split; [by exists (text_before_description entry), post|].
  rewrite Htext, !length_app. unfold text_before_description.
  cbn [app length]. lia.
Qed.

End StoredDocument.

(** X8 on the bugfix entry of the examples. *)
Lemma stored_entry_reconstructed_witness :
  ProgressStorage.entry_of_document (rt := Double.runtime)
    (document_of (rt := Double.runtime) (Double.entry_titled "Crash fixed" "bugfix"))
  = Ok {| pe_id := py "1710513045.123456";
          pe_date := Double.afternoon;
          pe_title := py "Crash fixed";
          pe_description :=
            ProgressStorage.entry_text (rt := Double.runtime)
              (Double.entry_titled "Crash fixed" "bugfix");
          pe_changes := [];
          pe_category := py "bugfix";
          pe_tags := [py "bugfix"];
          pe_impact_level := py "minor" |}.
Proof.
  apply (stored_entry_reconstructed (rt := Double.runtime)
           (Double.entry_titled "Crash fixed" "bugfix")); by vm_compute.
Defined.

(** X9 on the same entry: its description, [Notes of the day], comes
    back as the whole stored text. *)
Lemma description_not_recovered_witness :
  exists entry',
    ProgressStorage.entry_of_document (rt := Double.runtime)
      (document_of (rt := Double.runtime)
         (Double.entry_titled "Crash fixed" "bugfix")) = Ok entry'
    /\ pe_description entry'
       = ProgressStorage.entry_text (rt := Double.runtime)
           (Double.entry_titled "Crash fixed" "bugfix")
    /\ length (py "Notes of the day") < length (pe_description entry').
Proof.
  eexists. split; [vm_compute; reflexivity|].
  refine (let H := description_not_recovered (rt := Double.runtime)
                     (Double.entry_titled "Crash fixed" "bugfix") _ _ in
          conj (proj1 H) (proj2 (proj2 H))).
  vm_compute; reflexivity.
Defined.

(** ** Errors of the search *)

Section SearchErrors.
Context {rt : PyRuntime} {vs : VectorStore}.
Import ProgressStorage.

Lemma split_aux_whole (s : pystr) :
  10%N ∉ s -> split_aux [10%N] 0 s = (s, []).
Proof.
  induction s as [|c s IH]; intros Hs; [done|].
  apply not_elem_of_cons in Hs as [Hc Hs].
  cbn [split_aux startswith].
  replace (c =? 10)%N with false by (symmetry; apply N.eqb_neq; congruence).
  cbn [andb]. by rewrite (IH Hs).
Qed.

Lemma title_of_page_content_no_feed (content : pystr) :
  10%N ∉ content -> title_of_page_content content = Raise IndexError.
Proof.
  intros Hc. unfold title_of_page_content, split, nl.
  by rewrite (split_aux_whole _ Hc).
Qed.

Lemma title_of_page_content_feed (content : pystr) :
  10%N ∈ content -> exists title, title_of_page_content content = Ok title.
Proof.
  intros Hc. destruct (first_line_cut _ Hc) as [tail Hcut].
  unfold title_of_page_content, split at 1, nl. rewrite Hcut.
  rewrite (split_aux_line _ _ (first_line_no_feed content)).
  unfold split. destruct (split_aux [10%N] 0 tail) as [p ps].
  cbn [lookup list_lookup]. by eexists.
Qed.

(** X10. The parse of the title raises IndexError exactly on a text with
    no line feed; on any other text it returns a title. *)
Theorem title_of_page_content_index_error (content : pystr) :
  (title_of_page_content content = Raise IndexError <-> 10%N ∉ content)
  /\ (10%N ∈ content <-> exists title, title_of_page_content content = Ok title).
Proof.
  split; split.
  - intros Herr Hc. destruct (title_of_page_content_feed _ Hc) as [title Htitle].
    congruence.
  - apply title_of_page_content_no_feed.
  - apply title_of_page_content_feed.
  - intros [title Htitle]. destruct (decide (10%N ∈ content)) as [|Hc]; [done|].
    rewrite (title_of_page_content_no_feed _ Hc) in Htitle. discriminate.
Qed.

Lemma getitem_ok (md : gmap pystr pystr) (key : string) (v : pystr) :
  getitem md key = Ok v -> md !! py key = Some v.
Proof. unfold getitem. destruct (md !! py key); by intros [= ->]. Qed.

(** X11. A document is reconstructed only if its metadata has the five
    keys id, date, category, tags and impact_level and its text has a
    line feed. *)
Theorem entry_of_document_requires (doc : Document) (entry : ProgressEntry) :
  entry_of_document doc = Ok entry ->
  Forall (fun key => is_Some (metadata doc !! key)) metadata_keys
  /\ 10%N ∈ page_content doc.
Proof.
  unfold entry_of_document. intros Hdoc. invert_rbind Hdoc.
  split.
  - unfold metadata_keys.
    repeat match goal with
           | H : getitem _ _ = Ok _ |- _ => apply getitem_ok in H
           end.
    repeat constructor; by eexists.
  - destruct (decide (10%N ∈ page_content doc)) as [|Hc]; [done|].
    apply title_of_page_content_no_feed in Hc. congruence.
Qed.

End SearchErrors.

(** X11 on the stored bugfix entry of the examples. *)
Lemma entry_of_document_requires_witness :
  Forall (fun key =>
            is_Some (metadata (document_of (rt := Double.runtime)
                                 (Double.entry_titled "Crash fixed" "bugfix")) !! key))
         metadata_keys
  /\ 10%N ∈ page_content (document_of (rt := Double.runtime)
                            (Double.entry_titled "Crash fixed" "bugfix")).
Proof.
  eapply (entry_of_document_requires (rt := Double.runtime)).
  vm_compute. reflexivity.
Defined.

Section SearchFailure.
Context {rt : PyRuntime} {vs : VectorStore}.
Import ProgressStorage.

Lemma rmap_first_failure {A B} (f : A -> result B) (pre post : list A) (a : A) (e : exn) :
  Forall (fun x => exists b, f x = Ok b) pre ->
  f a = Raise e ->
  rmap f (pre ++ a :: post) = Raise e.
Proof.
  intros Hpre Ha. induction Hpre as [|x pre [b Hx] _ IH]; cbn [app rmap].
  - by rewrite Ha.
  - by rewrite Hx, IH.
Qed.

(** X12. The search is all or nothing: when a result of the collaborator
    cannot be reconstructed, and those before it can, the search raises
    the exception of that result and returns no entry at all. *)
Theorem search_first_failure (query : SearchQuery) (limit : Z) (w : World)
    (pre post : list (Document * Score)) (r : Document * Score) (e : exn) :
  search_results (collection w) query limit = Ok (pre ++ r :: post) ->
  Forall (fun x => exists entry, entry_of_document (fst x) = Ok entry) pre ->
  entry_of_document (fst r) = Raise e ->
  fst (search query limit w) = Raise e.
Proof.
  intros Hresults Hpre Hr. unfold search. cbn [fst].
  rewrite Hresults. cbn [rbind].
  by apply (rmap_first_failure (fun x => entry_of_document (fst x))).
Qed.

(** X13. [search] passes no filter at all exactly when the categories
    and the tags of the query are both absent or empty: an empty list
    filters nothing out. *)
Theorem filter_of_query_none_iff (query : SearchQuery) :
  filter_of_query query = None <->
  (sq_categories query = None \/ sq_categories query = Some [])
  /\ (sq_tags query = None \/ sq_tags query = Some []).
Proof.
  unfold filter_of_query.
  destruct (sq_categories query) as [[|c cs]|], (sq_tags query) as [[|t ts]|];
    cbn [truthy];
    first
      [ rewrite bool_decide_eq_false_2 by apply insert_non_empty;
        split; [discriminate | intros [[Hc|Hc] [Ht|Ht]]; discriminate]
      | rewrite bool_decide_eq_true_2 by done;
        split; [intros _; split; auto | done] ].
Qed.

End SearchFailure.

(** X12 on a collection that holds a stored entry and then a document
    without metadata: the search raises KeyError on the key id. *)
Lemma search_first_failure_witness :
  fst (ProgressStorage.search (rt := Double.runtime) (vs := Double.store)
         (Double.query_of "note" None) 5 Double2.shared_world)
  = Raise (KeyError (py "id")).
Proof.
  apply (search_first_failure (rt := Double.runtime) (vs := Double.store)
           (Double.query_of "note" None) 5 Double2.shared_world
           [(document_of (rt := Double.runtime)
               (Double.entry_titled "Crash fixed" "bugfix"), tt)]
           [] (Double2.foreign_document, tt)).
  - vm_compute. reflexivity.
  - constructor; [|constructor]. eexists. vm_compute. reflexivity.
  - vm_compute. reflexivity.
Defined.

Section FilteredSearch.
Context {rt : PyRuntime}.
Import ProgressStorage.

(** X14. A search with categories or tags given returns no entry at
    all, whatever the collection holds and however the store ranks: the
    clause [{"$in": [...]}] reaches the store as equalities on the
    nested key [<key>.$in], and the values of a metadata are strings,
    which have no such key. *)
Theorem filtered_search_returns_nothing (score : pystr -> Document -> Z)
    (query : SearchQuery) (limit : Z) (w : World) :
  truthy (sq_categories query) = true \/ truthy (sq_tags query) = true ->
  fst (search (vs := Qdrant.store score) query limit w) = Ok [].
Proof.
  intros Hgiven. unfold search. cbn [fst].
  by rewrite (search_results_filtered score _ query limit Hgiven).
Qed.

End FilteredSearch.

(** X14 on the bugfix entry of the examples, stored with the tag
    [bugfix] and searched by the tag [bugfix]. *)
Lemma filtered_search_returns_nothing_witness :
  fst (ProgressStorage.search (rt := Double.runtime)
         (vs := Qdrant.store Double.by_length)
         (Double2.query_by_tags "crash" [py "bugfix"]) 5
         (Double.world_with [Double.entry_titled "Crash fixed" "bugfix"]))
  = Ok [].
Proof.
  apply (filtered_search_returns_nothing (rt := Double.runtime) Double.by_length
           (Double2.query_by_tags "crash" [py "bugfix"]) 5
           (Double.world_with [Double.entry_titled "Crash fixed" "bugfix"])).
  by right.
Defined.

(** ** The search command *)

(** X15. The search command passes no filter to the store exactly when
    neither a category nor a tag option is given. *)
Theorem cli_search_unfiltered (query : pystr) (category tags : list pystr) :
  ProgressStorage.filter_of_query (Cli.search_query query category tags) = None <->
  category = [] /\ tags = [].
Proof.
  unfold ProgressStorage.filter_of_query, Cli.search_query.
  cbn [sq_categories sq_tags].
  destruct category as [|c cs], tags as [|t ts]; cbn [ProgressStorage.truthy];
    first
      [ rewrite bool_decide_eq_false_2 by apply insert_non_empty;
        split; [discriminate | intros [? ?]; discriminate]
      | rewrite bool_decide_eq_true_2 by done; by split ].
Qed.

(** ** The text of the changes *)

Section ChangeText.
Context {rt : PyRuntime}.
Import ProgressTracker.

Lemma format_block (n : nat) (commit : Commit) :
  py "- " ++ cc_description (change_of_commit n commit) ++ ProgressStorage.nl
  ++ py "  Files: " ++ join (py ", ") (cc_files_changed (change_of_commit n commit))
  ++ ProgressStorage.nl
  ++ py "  Category: " ++ cc_category (change_of_commit n commit) ++ ProgressStorage.nl
  ++ py "  Impact: "
  ++ ProgressStorage.metadata_get (cc_metadata (change_of_commit n commit))
       "lines_added" (py "0")
  ++ py " additions, "
  ++ ProgressStorage.metadata_get (cc_metadata (change_of_commit n commit))
       "lines_deleted" (py "0")
  ++ py " deletions"
  = commit_block commit.
Proof.
  unfold commit_block, ProgressStorage.metadata_get, change_of_commit, ProgressStorage.nl.
  cbn [cc_description cc_files_changed cc_category cc_metadata].
  repeat (rewrite lookup_insert_eq || (rewrite lookup_insert_ne by (by vm_compute))).
  reflexivity.
Qed.

Lemma format_changes_from (n : nat) (commits : list Commit) :
  map (fun change =>
         py "- " ++ cc_description change ++ ProgressStorage.nl
         ++ py "  Files: " ++ join (py ", ") (cc_files_changed change)
         ++ ProgressStorage.nl
         ++ py "  Category: " ++ cc_category change ++ ProgressStorage.nl
         ++ py "  Impact: "
         ++ ProgressStorage.metadata_get (cc_metadata change) "lines_added" (py "0")
         ++ py " additions, "
         ++ ProgressStorage.metadata_get (cc_metadata change) "lines_deleted" (py "0")
         ++ py " deletions")
      (changes_from n commits)
  = map commit_block commits.
Proof.
  revert n. induction commits as [|commit commits IH]; intros n; [done|].
  cbn [changes_from map]. by rewrite IH, format_block.
Qed.

(** X16. For the changes of an extraction, the text that the storage
    makes of them has one block per commit of the walk, in order, whose
    Impact line shows the insertions and deletions of the commit: the
    default 0 is never used. *)
Theorem format_changes_of_extraction (self : t) (since : datetime) (w : World) :
  ProgressStorage._format_changes (fst (get_recent_changes self since w)) =
  join [10%N] (map commit_block (iter_commits (repo self) since)).
Proof.
  rewrite get_recent_changes_run. cbn [fst]. unfold extraction.
  rewrite changes_loop_from, app_nil_l. cbn [length].
  unfold ProgressStorage._format_changes. by rewrite format_changes_from.
Qed.

End ChangeText.

(** ** The collection at start-up *)

Section Setup.
Import StoreSetup.

Lemma named_exists (collections : list CollectionInfo) :
  existsb (fun c => bool_decide (coll_name c = collection_name)) collections = true <->
  exists c, c ∈ collections /\ coll_name c = collection_name.
Proof.
  rewrite existsb_exists. split.
  - intros (c & Hc & Hname). exists c. rewrite list_elem_of_In.
    split; [done | by apply bool_decide_eq_true in Hname].
  - intros (c & Hc & Hname). exists c. rewrite <- list_elem_of_In.
    split; [done | by apply bool_decide_eq_true].
Qed.

(** X17. After [_initialize_store] the collection [progress_entries]
    exists; the collections that were there are kept, in order, and at
    most one is added. A collection of that name that is already there
    is taken as it is, whatever its vector size, so that a second run,
    even with another dimension, changes nothing. *)
Theorem initialize_store_effect (dimension dimension' : N)
    (collections : list CollectionInfo) :
  let after := _initialize_store dimension collections in
  (exists c, c ∈ after /\ coll_name c = collection_name)
  /\ (exists added, after = collections ++ added /\ length added <= 1)
  /\ ((exists c, c ∈ collections /\ coll_name c = collection_name) <->
      after = collections)
  /\ _initialize_store dimension' after = after.
Proof.
  cbv zeta. unfold _initialize_store.
  destruct (existsb _ collections) eqn:Hex; cbn [negb].
  - pose proof (proj1 (named_exists collections) Hex) as Hnamed.
    split; [done|].
    split; [exists []; split; [by rewrite app_nil_r | cbn [length]; lia]|].
    split; [done|]. by rewrite Hex.
  - assert (exists c, c ∈ create_collection collection_name (dimension, COSINE) collections
                      /\ coll_name c = collection_name) as Hnamed.
    { exists (mk_CollectionInfo collection_name dimension COSINE).
      split; [|reflexivity]. unfold create_collection.
      apply elem_of_app. right. by left. }
    split; [done|].
    split; [eexists; split; [reflexivity | cbn [length]; lia]|].
    split.
    + split.
      * intros Hc. apply named_exists in Hc. congruence.
      * unfold create_collection. intros Heq.
        apply (f_equal length) in Heq. rewrite length_app in Heq.
        cbn [length] in Heq. lia.
    + by rewrite (proj2 (named_exists _) Hnamed).
Qed.

End Setup.

(** ** Grouping by category *)

Section Grouping.
Context {rt : PyRuntime} {vs : VectorStore}.
Import Main.

Lemma group_append_keys (groups : list (pystr * list CodeChange)) (change : CodeChange)
    (key : pystr) :
  In key (map fst (group_append groups change)) ->
  In key (map fst groups) \/ key = cc_category change.
Proof.
  induction groups as [|[category l] groups IH]; cbn [group_append map fst].
  - intros [<-|[]]. by right.
  - destruct (bool_decide (category = cc_category change)); cbn [map fst].
    + intros [<-|Hin]; left; [by left | by right].
    + intros [<-|Hin]; [left; by left|].
      destruct (IH Hin) as [?|?]; [left; by right | by right].
Qed.

Lemma group_append_NoDup (groups : list (pystr * list CodeChange)) (change : CodeChange) :
  NoDup (map fst groups) -> NoDup (map fst (group_append groups change)).
Proof.
  induction groups as [|[category l] groups IH]; cbn [group_append map fst].
  - intros _. apply NoDup_singleton.
  - intros Hnd. apply NoDup_cons in Hnd as [Hfresh Hnd].
    destruct (bool_decide (category = cc_category change)) eqn:Hcat; cbn [map fst].
    + by apply NoDup_cons.
    + apply bool_decide_eq_false in Hcat.
      apply NoDup_cons. split; [|by apply IH].
      rewrite list_elem_of_In. intros Hin.
      apply group_append_keys in Hin as [Hin|Heq]; [|done].
      by apply Hfresh, list_elem_of_In.
Qed.

Lemma group_append_ok (groups : list (pystr * list CodeChange)) (change : CodeChange) :
  Forall group_ok groups -> Forall group_ok (group_append groups change).
Proof.
  induction groups as [|[category l] groups IH]; cbn [group_append].
  - intros _. constructor; [|done]. split; [done | by constructor].
  - intros Hok. apply Forall_cons in Hok as [[Hne Hcat] Hok].
    destruct (bool_decide (category = cc_category change)) eqn:Heq.
    + apply bool_decide_eq_true in Heq. constructor; [|done]. split.
      * cbn [snd]. by destruct l.
      * cbn [snd fst] in *. apply Forall_app. split; [done|]. by constructor.
    + constructor; [by split | by apply IH].
Qed.

Lemma group_append_perm (groups : list (pystr * list CodeChange)) (change : CodeChange) :
  Permutation (concat (map snd (group_append groups change)))
              (concat (map snd groups) ++ [change]).
Proof.
  induction groups as [|[category l] groups IH]; cbn [group_append map snd concat].
  - done.
  - destruct (bool_decide (category = cc_category change)); cbn [map snd concat].
    + rewrite <- !app_assoc. apply Permutation_app_head, Permutation_app_comm.
    + rewrite IH. by rewrite app_assoc.
Qed.

Lemma group_fold (changes : list CodeChange) :
  forall groups,
    NoDup (map fst groups) -> Forall group_ok groups ->
    NoDup (map fst (fold_left group_append changes groups))
    /\ Forall group_ok (fold_left group_append changes groups)
    /\ Permutation (concat (map snd (fold_left group_append changes groups)))
                   (concat (map snd groups) ++ changes).
Proof.
  induction changes as [|change changes IH]; intros groups Hnd Hok; cbn [fold_left].
  - by rewrite app_nil_r.
  - destruct (IH (group_append groups change)
                (group_append_NoDup _ _ Hnd) (group_append_ok _ _ Hok))
      as (Hnd' & Hok' & Hperm).
    split; [done|]. split; [done|].
    rewrite Hperm, group_append_perm, <- app_assoc. done.
Qed.

Lemma group_by_category_groups_ok (changes : list CodeChange) :
  Forall group_ok (group_by_category changes).
Proof.
  unfold group_by_category.
  by destruct (group_fold changes [] (NoDup_nil_2) (Forall_nil_2 _)) as (_ & ? & _).
Qed.

Lemma group_by_category_keys_distinct (changes : list CodeChange) :
  NoDup (map fst (group_by_category changes)).
Proof.
  unfold group_by_category.
  by destruct (group_fold changes [] (NoDup_nil_2) (Forall_nil_2 _)) as (? & _ & _).
Qed.

Lemma group_by_category_perm (changes : list CodeChange) :
  Permutation (concat (map snd (group_by_category changes))) changes.
Proof.
  unfold group_by_category.
  by destruct (group_fold changes [] (NoDup_nil_2) (Forall_nil_2 _)) as (_ & _ & ?).
Qed.

(** X18. The grouping of [/sync/] is a partition of the changes by
    category: the keys are pairwise distinct, every group is non-empty
    and holds changes of its key only, and the groups together hold the
    changes, each once. *)
Theorem group_by_category_partition (changes : list CodeChange) :
  NoDup (map fst (group_by_category changes))
  /\ Forall group_ok (group_by_category changes)
  /\ Permutation (concat (map snd (group_by_category changes))) changes.
Proof.
  unfold group_by_category.
  destruct (group_fold changes [] (NoDup_nil_2) (Forall_nil_2 _))
    as (Hnd & Hok & Hperm).
  by repeat split.
Qed.

Lemma in_nub (x : pystr) (l : list pystr) : In x (nub l) <-> In x l.
Proof.
  induction l as [|a l IH]; [done|]. cbn [nub In].
  rewrite filter_In, IH, negb_true_iff, bool_decide_eq_false.
  destruct (decide (a = x)) as [->|Hne]; [tauto|]. split.
  - intros [?|[? _]]; [by left | by right].
  - intros [?|?]; [by left | right; split; [done | congruence]].
Qed.

Lemma NoDup_filter_bool {A} (p : A -> bool) (l : list A) :
  NoDup l -> NoDup (List.filter p l).
Proof.
  induction 1 as [|x l Hx Hl IH]; cbn [List.filter]; [constructor|].
  destruct (p x); [|done]. apply NoDup_cons. split; [|done].
  rewrite list_elem_of_In, filter_In. intros [Hin _].
  by apply Hx, list_elem_of_In.
Qed.

Lemma NoDup_nub (l : list pystr) : NoDup (nub l).
Proof.
  induction l as [|a l IH]; cbn [nub]; [constructor|].
  apply NoDup_cons. split.
  - rewrite list_elem_of_In, filter_In, negb_true_iff, bool_decide_eq_false.
    by intros [_ ?].
  - by apply NoDup_filter_bool.
Qed.

Lemma nub_snoc (l : list pystr) (k : pystr) :
  nub (l ++ [k]) = nub l ++ (if bool_decide (k ∈ l) then [] else [k]).
Proof.
  induction l as [|a l IH]; [done|].
  cbn [app nub]. rewrite IH, List.filter_app. cbn [app]. do 2 f_equal.
  destruct (decide (k ∈ l)) as [Hin|Hout].
  - rewrite !bool_decide_eq_true_2; [done | by right | done].
  - rewrite (bool_decide_eq_false_2 (k ∈ l)) by done. cbn [List.filter].
    destruct (decide (k = a)) as [->|Hne].
    + rewrite (bool_decide_eq_true_2 (a = a)) by done. cbn [negb].
      by rewrite bool_decide_eq_true_2 by (by left).
    + rewrite (bool_decide_eq_false_2 (k = a)) by done. cbn [negb].
      rewrite bool_decide_eq_false_2; [done|].
      intros Hin. apply elem_of_cons in Hin as [?|?]; done.
Qed.

Lemma changes_of_snoc (k : pystr) (l : list CodeChange) (change : CodeChange) :
  changes_of k (l ++ [change]) =
  changes_of k l ++ (if bool_decide (k = cc_category change) then [change] else []).
Proof.
  unfold changes_of. rewrite List.filter_app. cbn [List.filter]. f_equal.
  destruct (decide (k = cc_category change)) as [->|Hne].
  - by rewrite !bool_decide_eq_true_2.
  - rewrite !bool_decide_eq_false_2; [done | done | congruence].
Qed.

Lemma changes_of_none (k : pystr) (l : list CodeChange) :
  k ∉ map cc_category l -> changes_of k l = [].
Proof.
  induction l as [|c l IH]; [done|]. cbn [map]. intros Hk.
  apply not_elem_of_cons in Hk as [Hc Hk].
  unfold changes_of in *. cbn [List.filter].
  rewrite bool_decide_eq_false_2 by congruence. by apply IH.
Qed.

(** What [group_append] does to groups with distinct keys: the change
    joins the group of its category, or opens a group at the end. *)
Lemma group_append_spec (keys : list pystr) (g : pystr -> list CodeChange)
    (change : CodeChange) :
  NoDup keys ->
  group_append (map (fun k => (k, g k)) keys) change =
  map (fun k => (k, g k ++ (if bool_decide (k = cc_category change)
                            then [change] else []))) keys
  ++ (if bool_decide (cc_category change ∈ keys) then []
      else [(cc_category change, [change])]).
Proof.
  induction 1 as [|k keys Hk Hkeys IH]; [done|].
  cbn [map group_append app].
  destruct (decide (k = cc_category change)) as [Heq|Hne].
  - subst k.
    repeat (rewrite (bool_decide_eq_true_2 (cc_category change = cc_category change))
              by reflexivity).
    rewrite (bool_decide_eq_true_2 (cc_category change ∈ cc_category change :: keys))
      by (by left).
    rewrite app_nil_r. f_equal. apply map_ext_in. intros k' Hk'.
    rewrite bool_decide_eq_false_2; [by rewrite app_nil_r|].
    intros Heq'. apply Hk. apply list_elem_of_In. congruence.
  - repeat (rewrite (bool_decide_eq_false_2 (k = cc_category change)) by assumption).
    rewrite IH, app_nil_r. cbn [app]. do 2 f_equal.
    destruct (decide (cc_category change ∈ keys)) as [Hin|Hout].
    + rewrite !bool_decide_eq_true_2; [done | by right | done].
    + rewrite !bool_decide_eq_false_2; [done | | done].
      intros Hin. apply elem_of_cons in Hin as [?|?]; [congruence | done].
Qed.

Lemma groups_snoc (l : list CodeChange) (change : CodeChange) :
  group_append (groups_by_first_occurrence l) change =
  groups_by_first_occurrence (l ++ [change]).
Proof.
  unfold groups_by_first_occurrence.
  rewrite (group_append_spec _ (fun k => changes_of k l) change (NoDup_nub _)).
  rewrite map_app. cbn [map]. rewrite nub_snoc, map_app. f_equal.
  - apply map_ext. intros k. by rewrite changes_of_snoc.
  - destruct (decide (cc_category change ∈ map cc_category l)) as [Hin|Hout].
    + rewrite !bool_decide_eq_true_2; [done | done |].
      by apply list_elem_of_In, in_nub, list_elem_of_In.
    + rewrite !bool_decide_eq_false_2; [| done |].
      * cbn [map]. rewrite changes_of_snoc, (changes_of_none _ _ Hout).
        by rewrite bool_decide_eq_true_2.
      * intros Hin. by apply Hout, list_elem_of_In, in_nub, list_elem_of_In.
Qed.

Lemma groups_fold (changes l : list CodeChange) :
  fold_left group_append changes (groups_by_first_occurrence l) =
  groups_by_first_occurrence (l ++ changes).
Proof.
  revert l. induction changes as [|change changes IH]; intros l; cbn [fold_left].
  - by rewrite app_nil_r.
  - rewrite groups_snoc, IH, <- app_assoc. done.
Qed.

(** The groups are those of the categories in the order of their first
    occurrence, each with its changes in their order. *)
Lemma group_by_category_first_occurrence (changes : list CodeChange) :
  group_by_category changes = groups_by_first_occurrence changes.
Proof. unfold group_by_category. apply (groups_fold changes []). Qed.

End Grouping.

(** ** What /sync/ does *)

Section SyncRun.
Context {rt : PyRuntime} {vs : VectorStore}.
Import ProgressTracker Main.

(** One turn of the loop on a group that is not empty. *)
Lemma sync_loop_step (tracker : t) (category : pystr) (change : CodeChange)
    (rest : list CodeChange) (groups : list (pystr * list CodeChange))
    (entries : list ProgressEntry) (w : World) :
  exists entry,
    sync_entry_of (category, change :: rest) entry
    /\ sync_loop tracker ((category, change :: rest) :: groups) entries w =
       sync_loop tracker groups (entries ++ [entry])
         {| clock := clock w;
            ticks := 3 + ticks w;
            since_log := since_log w ++ [replace_hour_minute (clock w (ticks w)) 0 0];
            collection := collection w ++ [document_of entry] |}.
Proof.
  eexists. split; [|reflexivity].
  unfold sync_entry_of. cbn [fst snd].
  split; [reflexivity|]. split; [reflexivity|]. split; reflexivity.
Qed.

(** The whole loop: the entries it adds and the world it leaves. *)
Lemma sync_loop_run (tracker : t) (groups : list (pystr * list CodeChange)) :
  forall (entries : list ProgressEntry) (w : World),
  exists new w',
    sync_loop tracker groups entries w = (entries ++ new, w')
    /\ Forall2 sync_entry_of (nonempty_groups groups) new
    /\ ticks w' = 3 * length new + ticks w
    /\ length (since_log w') = length new + length (since_log w)
    /\ collection w' = collection w ++ map document_of new.
Proof.
  induction groups as [|[category [|change rest]] groups IH]; intros entries w.
  - exists [], w. cbn [sync_loop nonempty_groups List.filter map length].
    rewrite !app_nil_r.
    split; [done|]. split; [constructor|]. split; [lia|]. split; [lia|done].
  - apply IH.
  - destruct (sync_loop_step tracker category change rest groups entries w)
      as (entry & Hentry & ->).
    edestruct IH as (new & w' & -> & Hnew & Hticks & Hlog & Hcoll).
    exists (entry :: new), w'. cbn [ticks since_log collection] in *.
    split; [by rewrite <- app_assoc|].
    split; [by constructor|].
    rewrite Hticks, Hlog, Hcoll, length_app, <- app_assoc.
    cbn [length map app]. split; [lia|]. split; [lia|done].
Qed.

Lemma nonempty_groups_ok (groups : list (pystr * list CodeChange)) :
  Forall group_ok groups -> nonempty_groups groups = groups.
Proof.
  induction 1 as [|[category l] groups [Hne _] _ IH]; [done|].
  cbn [nonempty_groups List.filter snd] in *. destruct l; [done|].
  unfold nonempty_groups in IH. by rewrite IH.
Qed.

Lemma sync_entries_run (tracker : t) (w : World) :
  exists entries w',
    sync_entries tracker w =
    (extraction tracker (replace_hour_minute (clock w (ticks w)) 0 0), entries, w')
    /\ Forall2 sync_entry_of
         (group_by_category
            (extraction tracker (replace_hour_minute (clock w (ticks w)) 0 0)))
         entries
    /\ ticks w' = 1 + 3 * length entries + ticks w
    /\ length (since_log w') = 1 + length entries + length (since_log w)
    /\ collection w' = collection w ++ map document_of entries.
Proof.
  unfold sync_entries, bind, now, ret. rewrite get_recent_changes_run.
  set (changes := extraction tracker _).
  match goal with
  | |- context [sync_loop tracker ?g [] ?w1] =>
      destruct (sync_loop_run tracker g [] w1)
        as (entries & w' & Hrun & Hentries & Hticks & Hlog & Hcoll);
      rewrite Hrun
  end.
  exists entries, w'. cbn [ticks since_log collection app] in *.
  rewrite nonempty_groups_ok in Hentries
    by apply (group_by_category_groups_ok changes).
  split; [done|]. split; [done|].
  rewrite Hticks, Hlog, length_app. cbn [length].
  split; [lia|]. split; [lia|done].
Qed.

End SyncRun.

Section SyncFacts2.
Context {rt : PyRuntime} {vs : VectorStore}.
Import ProgressTracker Main.

Lemma sync_from_git_run (tracker : t) (w : World) :
  sync_from_git tracker w =
  (py "Successfully synced "
   ++ str_of_N (N.of_nat (length (fst (fst (sync_entries tracker w))))) ++ py " changes",
   length (snd (fst (sync_entries tracker w))),
   snd (sync_entries tracker w)).
Proof.
  unfold sync_from_git, bind, ret.
  by destruct (sync_entries tracker w) as [[changes entries] w'].
Qed.

Lemma sync_entry_categories (groups : list (pystr * list CodeChange))
    (entries : list ProgressEntry) :
  Forall2 sync_entry_of groups entries -> map pe_category entries = map fst groups.
Proof.
  induction 1 as [|g entry groups entries [Hcat _] _ IH]; [done|].
  cbn [map]. by rewrite Hcat, IH.
Qed.

(** X19. [/sync/] creates one entry per category that occurs among the
    changes of the day, in the order in which the categories first
    occur: the entry of a category has that category, that category as
    its only tag, the impact level "minor" and a title that counts the
    changes of the category. No two entries have the same category. *)
Theorem sync_entries_per_category (tracker : t) (w : World) :
  Forall2 sync_entry_of
          (groups_by_first_occurrence (fst (fst (sync_entries tracker w))))
          (snd (fst (sync_entries tracker w)))
  /\ map pe_category (snd (fst (sync_entries tracker w)))
     = nub (map cc_category (fst (fst (sync_entries tracker w))))
  /\ NoDup (map pe_category (snd (fst (sync_entries tracker w)))).
Proof.
  destruct (sync_entries_run tracker w) as (entries & w' & -> & Hentries & _).
  cbn [fst snd]. rewrite group_by_category_first_occurrence in Hentries.
  pose proof (sync_entry_categories _ _ Hentries) as Hcats.
  unfold groups_by_first_occurrence in Hcats.
  rewrite map_map in Hcats. cbn [fst] in Hcats. rewrite map_id in Hcats.
  split; [done|]. split; [done|].
  rewrite Hcats. apply NoDup_nub.
Qed.

Lemma groups_length (groups : list (pystr * list CodeChange)) :
  Forall group_ok groups -> length groups <= length (concat (map snd groups)).
Proof.
  induction 1 as [|[category l] groups [Hne _] _ IH]; [done|].
  cbn [map snd concat length] in *. rewrite length_app.
  destruct l; [done|]. cbn [length]. lia.
Qed.

Lemma group_keys_enumerated (changes : list CodeChange) :
  Forall (fun change => cc_category change ∈ get_categories) changes ->
  forall key, key ∈ map fst (group_by_category changes) -> key ∈ get_categories.
Proof.
  intros Hchanges key Hkey.
  rewrite list_elem_of_In, in_map_iff in Hkey. destruct Hkey as ([k l] & <- & Hg).
  pose proof (group_by_category_groups_ok changes) as Hok.
  rewrite Forall_forall in Hok. apply list_elem_of_In in Hg.
  destruct (Hok _ Hg) as [Hne Hcat]. cbn [fst snd] in *.
  destruct l as [|change l]; [done|].
  apply Forall_cons in Hcat as [<- _].
  rewrite Forall_forall in Hchanges. apply Hchanges.
  rewrite <- (group_by_category_perm changes).
  apply list_elem_of_In, in_concat. exists (change :: l).
  split; [|by left]. apply in_map_iff. exists (cc_category change, change :: l).
  split; [done | by apply list_elem_of_In].
Qed.

(** X20. [/sync/] creates at most six entries, and never more entries
    than there are changes. *)
Theorem sync_from_git_bounds (tracker : t) (w : World) :
  snd (fst (sync_from_git tracker w)) <= 6
  /\ snd (fst (sync_from_git tracker w)) <= length (fst (fst (sync_entries tracker w))).
Proof.
  rewrite sync_from_git_run. cbn [fst snd].
  destruct (sync_entries_run tracker w) as (entries & w' & -> & Hentries & _).
  cbn [fst snd]. set (changes := extraction tracker _) in *.
  rewrite <- (Forall2_length _ _ _ Hentries).
  split.
  - rewrite <- (length_map fst).
    change 6 with (length get_categories).
    apply submseteq_length, NoDup_submseteq;
      [apply group_by_category_keys_distinct|].
    apply group_keys_enumerated. unfold changes, extraction.
    rewrite changes_loop_from, app_nil_l. apply changes_from_categories.
  - rewrite <- (Permutation_length (group_by_category_perm changes)).
    apply groups_length, group_by_category_groups_ok.
Qed.

(** X21. [/sync/] walks the git history once to group the changes and
    once more for every entry it creates, and reads the clock once and
    three times for every entry. *)
Theorem sync_from_git_reads (tracker : t) (w : World) :
  length (since_log (snd (sync_from_git tracker w))) =
  1 + snd (fst (sync_from_git tracker w)) + length (since_log w)
  /\ ticks (snd (sync_from_git tracker w)) =
     1 + 3 * snd (fst (sync_from_git tracker w)) + ticks w.
Proof.
  rewrite sync_from_git_run. cbn [fst snd].
  destruct (sync_entries_run tracker w) as (entries & w' & -> & _ & Hticks & Hlog & _).
  cbn [fst snd]. by split.
Qed.

(** X22. [/sync/] stores the entries it creates, in order, after the
    documents that were there, and stores nothing else. *)
Theorem sync_entries_stored (tracker : t) (w : World) :
  collection (snd (sync_entries tracker w)) =
  collection w ++ map document_of (snd (fst (sync_entries tracker w))).
Proof.
  destruct (sync_entries_run tracker w) as (entries & w' & -> & _ & _ & _ & Hcoll).
  by cbn [fst snd].
Qed.

(** X23. On a day without commits [/sync/] creates no entry, stores
    nothing and answers that 0 changes were synced. *)
Theorem sync_from_git_nothing (tracker : t) (w : World) :
  iter_commits (repo tracker) (replace_hour_minute (clock w (ticks w)) 0 0) = [] ->
  fst (sync_from_git tracker w) = (py "Successfully synced 0 changes", 0)
  /\ collection (snd (sync_from_git tracker w)) = collection w.
Proof.
  intros Hnone. unfold sync_from_git, sync_entries, bind, now, ret.
  rewrite get_recent_changes_run. unfold extraction. cbn [clock ticks].
  rewrite Hnone. by split.
Qed.

End SyncFacts2.

(** X23 on a repository without commits. *)
Lemma sync_from_git_nothing_witness :
  fst (Main.sync_from_git (rt := Double.runtime) (Double.tracker_of [])
         (Double.world_at Double.afternoon))
  = (py "Successfully synced 0 changes", 0)
  /\ collection (snd (Main.sync_from_git (rt := Double.runtime) (Double.tracker_of [])
                        (Double.world_at Double.afternoon))) = [].
Proof.
  apply (sync_from_git_nothing (rt := Double.runtime) (Double.tracker_of [])
           (Double.world_at Double.afternoon)).
  reflexivity.
Defined.

(** ** The tags of an entry *)

(** X24. [create_progress_entry] returns the tags it is given as they
    are, and an empty list of tags gives the same entry as no tags at
    all. *)
Theorem create_progress_entry_tags {rt : PyRuntime} (self : ProgressTracker.t)
    (title description category : pystr) (tags : list pystr)
    (impact_level : option pystr) (w : World) :
  pe_tags (fst (ProgressTracker.create_progress_entry self title description category
                  (Some tags) impact_level w)) = tags
  /\ ProgressTracker.create_progress_entry self title description category
       (Some []) impact_level w
     = ProgressTracker.create_progress_entry self title description category
         None impact_level w.
Proof. split; [by destruct tags | done]. Qed.

(** ** The issue tracker *)

Section Issues.
Context {rt : PyRuntime}.
Import GitHubIssueTracker.

Variable int_of_str : pystr -> option Z.
Variable github_fails : Call -> option exn.

Lemma update_issue_calls (issue_id status : pystr) (comment : option pystr)
    (number : Z) (log : list Call) :
  int_of_str issue_id = Some number ->
  (forall c, github_fails c = None) ->
  update_issue int_of_str github_fails issue_id status comment log =
  (Ok tt,
   log ++ [get_issue number] ++ comment_calls number comment
   ++ [edit number (if bool_decide (lower status = py "closed")
                    then py "closed" else py "open")]).
Proof using Type.
  intros Hid Hup. unfold update_issue. rewrite Hid.
  unfold gbind, call, gret. rewrite Hup.
  destruct comment as [[|c body]|]; cbn [comment_calls];
    destruct (bool_decide (lower status = py "closed"));
    rewrite ?Hup, <- ?app_assoc; reflexivity.
Qed.

(** X25. When GitHub answers every call, [update_issue] with a status
    that is "closed" in any letter case fetches the issue, posts the
    comment if one is given and not empty, and then sets the state to
    "closed". *)
Theorem update_issue_closes (issue_id status : pystr) (comment : option pystr)
    (number : Z) (log : list Call) :
  int_of_str issue_id = Some number ->
  (forall c, github_fails c = None) ->
  case_variant status (py "closed") ->
  update_issue int_of_str github_fails issue_id status comment log =
  (Ok tt,
   log ++ [get_issue number] ++ comment_calls number comment
   ++ [edit number (py "closed")]).
Proof using Type.
  intros Hid Hup Hstatus.
  rewrite (update_issue_calls _ _ _ _ _ Hid Hup).
  assert (lower status = py "closed") as ->; [|done].
  unfold lower. apply lower_from_variant; [|done].
  repeat constructor; by vm_compute.
Qed.

(** X26. With any status whose lowercase is not "closed", [update_issue]
    sets the state to "open": a status that is misspelt re-opens the
    issue. *)
Theorem update_issue_reopens (issue_id status : pystr) (comment : option pystr)
    (number : Z) (log : list Call) :
  int_of_str issue_id = Some number ->
  (forall c, github_fails c = None) ->
  lower status <> py "closed" ->
  update_issue int_of_str github_fails issue_id status comment log =
  (Ok tt,
   log ++ [get_issue number] ++ comment_calls number comment
   ++ [edit number (py "open")]).
Proof using Type.
  intros Hid Hup Hstatus.
  rewrite (update_issue_calls _ _ _ _ _ Hid Hup).
  by rewrite bool_decide_eq_false_2.
Qed.

(** X27. With an issue id that [int] cannot read, [update_issue] and
    [link_to_progress] raise ValueError before any call to GitHub. *)
Theorem issue_id_unreadable (issue_id status : pystr) (comment : option pystr)
    (entry : ProgressEntry) (log : list Call) :
  int_of_str issue_id = None ->
  update_issue int_of_str github_fails issue_id status comment log
  = (Raise ValueError, log)
  /\ link_to_progress int_of_str github_fails issue_id entry log
     = (Raise ValueError, log).
Proof using Type.
  intros Hid. unfold update_issue, link_to_progress. by rewrite Hid.
Qed.

(** X28. When the comment of [update_issue] is refused by GitHub, the
    exception is raised and the state of the issue is not edited. *)
Theorem update_issue_comment_refused (issue_id status body : pystr) (c : N)
    (number : Z) (e : exn) (log : list Call) :
  int_of_str issue_id = Some number ->
  github_fails (get_issue number) = None ->
  github_fails (create_comment number (c :: body)) = Some e ->
  update_issue int_of_str github_fails issue_id status (Some (c :: body)) log =
  (Raise e, log ++ [get_issue number; create_comment number (c :: body)]).
Proof using Type.
  intros Hid Hget Hcomment. unfold update_issue. rewrite Hid.
  unfold gbind, call. rewrite Hget, Hcomment.
  by rewrite <- app_assoc.
Qed.

End Issues.

(** X25 on the status [Closed], with a comment. *)
Lemma update_issue_closes_witness :
  GitHubIssueTracker.update_issue (rt := Double.runtime)
    Double2.int_of_known Double2.github_up (py "42") (py "Closed") (Some (py "done")) []
  = (Ok tt,
     [GitHubIssueTracker.get_issue 42;
      GitHubIssueTracker.create_comment 42 (py "done");
      GitHubIssueTracker.edit 42 (py "closed")]).
Proof.
  apply (update_issue_closes (rt := Double.runtime)
           Double2.int_of_known Double2.github_up
           (py "42") (py "Closed") (Some (py "done")) 42 []).
  - reflexivity.
  - reflexivity.
  - unfold case_variant. cbv [py list_ascii_of_string map].
    repeat (constructor; [first [by left | by right]|]).
    constructor.
Defined.

(** X26 on the status [close], without a comment. *)
Lemma update_issue_reopens_witness :
  GitHubIssueTracker.update_issue (rt := Double.runtime)
    Double2.int_of_known Double2.github_up (py "42") (py "close") None []
  = (Ok tt,
     [GitHubIssueTracker.get_issue 42; GitHubIssueTracker.edit 42 (py "open")]).
Proof.
  apply (update_issue_reopens (rt := Double.runtime)
           Double2.int_of_known Double2.github_up
           (py "42") (py "close") None 42 []).
  - reflexivity.
  - reflexivity.
  - by vm_compute.
Defined.

(** X27 on the issue id [x42]. *)
Lemma issue_id_unreadable_witness :
  GitHubIssueTracker.update_issue (rt := Double.runtime)
    Double2.int_of_known Double2.github_up (py "x42") (py "closed") None []
  = (Raise ValueError, [])
  /\ GitHubIssueTracker.link_to_progress (rt := Double.runtime)
       Double2.int_of_known Double2.github_up (py "x42")
       (Double.entry_titled "Crash fixed" "bugfix") []
     = (Raise ValueError, []).
Proof.
  apply (issue_id_unreadable (rt := Double.runtime)
           Double2.int_of_known Double2.github_up).
  reflexivity.
Defined.

(** X28 on a GitHub that refuses comments. *)
Lemma update_issue_comment_refused_witness :
  GitHubIssueTracker.update_issue (rt := Double.runtime)
    Double2.int_of_known Double2.github_comments_down
    (py "7") (py "closed") (Some (py "done")) []
  = (Raise StorageUnavailableError,
     [GitHubIssueTracker.get_issue 7;
      GitHubIssueTracker.create_comment 7 (py "done")]).
Proof.
  apply (update_issue_comment_refused (rt := Double.runtime)
           Double2.int_of_known Double2.github_comments_down
           (py "7") (py "closed") (py "one") 100%N 7 StorageUnavailableError []);
    reflexivity.
Defined.
